(** * Fixer.io currency book: a shallow embedding of [book.py]

    The four data-fetching procedures of [FixedCurrencyDataBook] all have the
    same shape: build a URL, call [requests.get] with the stored timeout,
    parse the body as JSON, branch on the [success] flag and render text.
    The embedding keeps that shape.  Python values that come out of the JSON
    parser are a small inductive type, Python exceptions are values of an
    error monad, and [try ... except] is a combinator that tries its handlers
    in order. *)

From Stdlib Require Import List String Ascii ZArith Bool Lia.
From Stdlib Require Import Sorting.Sorted Sorting.Permutation.
From Stdlib Require Import Floats.SpecFloat.
From Stdlib Require Import Numbers.DecimalString.
From Stdlib Require Import Sorting.Mergesort Structures.Orders.
Import ListNotations.

#[local] Set Warnings "-register-all".
Local Open Scope string_scope.
Local Open Scope Z_scope.

(** ** Python values *)

(** A Python [float] is an IEEE 754 binary64 number. *)
Definition pyfloat := spec_float.
Definition prec64 : Z := 53.
Definition emax64 : Z := 1024.

(** What [response.json()] can return.  A dict keeps its insertion order, so
    it is an association list; a dict built by the parser has no repeated
    key, which the theorems that need it assume with [NoDup]. *)
Inductive json : Type :=
| JNull
| JBool (b : bool)
| JInt (z : Z)
| JFloat (f : pyfloat)
| JStr (s : string)
| JList (l : list json)
| JDict (d : list (string * json)).

Definition pydict := list (string * json).

(** ** Exceptions *)

(** The classes of exception the procedures can meet.  Every value of this
    type is an instance of Python's [Exception].  [LibraryError] stands for
    the classes of the HTTP library ([ConnectionError], [Timeout],
    [JSONDecodeError], ...); its flag tells whether [ValueError] is among the
    bases of the class, as it is for [requests.exceptions.JSONDecodeError]
    and [InvalidURL]. *)
Inductive exc_class : Type :=
| ValueError
| AttributeError
| TypeError
| OverflowError
| ZeroDivisionError
| LibraryError (value_error : bool).

Record exn : Type := mkExn { exc_type : exc_class; exc_str : string }.

(** [isinstance(e, ValueError)] *)
Definition is_ValueError (e : exn) : bool :=
  match exc_type e with
  | ValueError => true
  | LibraryError b => b
  | _ => false
  end.

(** [isinstance(e, Exception)] *)
Definition is_Exception (e : exn) : bool := true.

Definition is_ZeroDivisionError (e : exn) : bool :=
  match exc_type e with
  | ZeroDivisionError => true
  | _ => false
  end.

(** ** The error monad *)

Inductive outcome (A : Type) : Type :=
| Return (a : A)
| Raise (e : exn).

Arguments Return {A} a.
Arguments Raise {A} e.

Definition bind {A B : Type} (m : outcome A) (k : A -> outcome B) : outcome B :=
  match m with
  | Return a => k a
  | Raise e => Raise e
  end.

Notation "x <- m ;; k" := (bind m (fun x => k))
  (at level 61, m at next level, right associativity).

(** One [except C as e: h] clause: the class test and the handler. *)
Definition except_clause (A : Type) : Type := ((exn -> bool) * (exn -> outcome A))%type.

(** The first clause whose class matches handles the exception; when none
    matches the exception propagates. *)
Fixpoint handle {A : Type} (clauses : list (except_clause A)) (e : exn) : outcome A :=
  match clauses with
  | [] => Raise e
  | (matches, handler) :: rest =>
      if matches e then handler e else handle rest e
  end.

Definition try_except {A : Type} (body : outcome A) (clauses : list (except_clause A)) : outcome A :=
  match body with
  | Return a => Return a
  | Raise e => handle clauses e
  end.

(** ** Builtins on values *)

(** [type(v).__name__] *)
Definition type_name (v : json) : string :=
  match v with
  | JNull => "NoneType"
  | JBool _ => "bool"
  | JInt _ => "int"
  | JFloat _ => "float"
  | JStr _ => "str"
  | JList _ => "list"
  | JDict _ => "dict"
  end.

(** [bool(v)] *)
Definition truthy (v : json) : bool :=
  match v with
  | JNull => false
  | JBool b => b
  | JInt z => negb (z =? 0)
  | JFloat (S754_zero _) => false
  | JFloat _ => true
  | JStr s => negb (s =? "")%string
  | JList l => match l with [] => false | _ => true end
  | JDict d => match d with [] => false | _ => true end
  end.

(** [d.get(key)] on the association list; [None] is [JNull] in [dict_get]. *)
Fixpoint lookup (key : string) (d : pydict) : option json :=
  match d with
  | [] => None
  | (k, v) :: rest => if (k =? key)%string then Some v else lookup key rest
  end.

Definition dict_get_default (d : pydict) (key : string) (default : json) : json :=
  match lookup key d with
  | Some v => v
  | None => default
  end.

Definition dict_get (d : pydict) (key : string) : json :=
  dict_get_default d key JNull.

Definition no_attribute (v : json) (attr : string) : exn :=
  mkExn AttributeError ("'" ++ type_name v ++ "' object has no attribute '" ++ attr ++ "'").

(** [v.get(key, default)]: only a dict has the method. *)
Definition get (v : json) (key : string) (default : json) : outcome json :=
  match v with
  | JDict d => Return (dict_get_default d key default)
  | _ => Raise (no_attribute v "get")
  end.

(** [v.get(key)] *)
Definition get1 (v : json) (key : string) : outcome json :=
  get v key JNull.

(** [v.items()] *)
Definition items (v : json) : outcome pydict :=
  match v with
  | JDict d => Return d
  | _ => Raise (no_attribute v "items")
  end.

(** [len(v)] for the values the parser builds. *)
Definition len (v : json) : outcome Z :=
  match v with
  | JDict d => Return (Z.of_nat (List.length d))
  | JList l => Return (Z.of_nat (List.length l))
  | JStr s => Return (Z.of_nat (String.length s))
  | _ => Raise (mkExn TypeError ("object of type '" ++ type_name v ++ "' has no len()"))
  end.

(** [str(z)] for an [int]. *)
Definition str_of_int (z : Z) : string := NilZero.string_of_int (Z.to_int z).

(** [sep.join(l)] *)
Definition join (sep : string) (l : list string) : string := String.concat sep l.

(** ** Numbers *)

Definition is_zero (f : pyfloat) : bool :=
  match f with
  | S754_zero _ => true
  | _ => false
  end.

Definition is_infinite (f : pyfloat) : bool :=
  match f with
  | S754_infinity _ => true
  | _ => false
  end.

(** [float(z)] for an [int]: the nearest binary64 number, ties to even;
    an [int] beyond the range of a [float] raises. *)
Definition float_of_int (z : Z) : outcome pyfloat :=
  let f := binary_normalize prec64 emax64 z 0 false in
  if is_infinite f
  then Raise (mkExn OverflowError "int too large to convert to float")
  else Return f.

Definition float_truediv (x y : pyfloat) : outcome pyfloat :=
  if is_zero y
  then Raise (mkExn ZeroDivisionError "float division by zero")
  else Return (SFdiv prec64 emax64 x y).

(** [a / b] on two [int]s: the quotient rounded once to binary64. *)
Definition int_truediv (a b : Z) : outcome pyfloat :=
  if b =? 0 then Raise (mkExn ZeroDivisionError "division by zero")
  else
    let negative := xorb (a <? 0) (b <? 0) in
    match a with
    | Z0 => Return (S754_zero negative)
    | _ =>
        let '(q, e, loc) := SFdiv_core_binary prec64 emax64 (Z.abs a) 0 (Z.abs b) 0 in
        let f := binary_round_aux prec64 emax64 negative q e loc in
        if is_infinite f
        then Raise (mkExn OverflowError "integer division result too large for a float")
        else Return f
    end.

Definition int_of_bool (b : bool) : Z := if b then 1 else 0.

(** The three numeric types of a parsed document; [bool] is a subclass of
    [int]. *)
Inductive number : Type :=
| NInt (z : Z)
| NFloat (f : pyfloat).

Definition as_number (v : json) : option number :=
  match v with
  | JBool b => Some (NInt (int_of_bool b))
  | JInt z => Some (NInt z)
  | JFloat f => Some (NFloat f)
  | _ => None
  end.

(** [a / b] *)
Definition truediv (a b : json) : outcome pyfloat :=
  match as_number a, as_number b with
  | Some (NInt x), Some (NInt y) => int_truediv x y
  | Some (NFloat x), Some (NFloat y) => float_truediv x y
  | Some (NInt x), Some (NFloat y) => x' <- float_of_int x ;; float_truediv x' y
  | Some (NFloat x), Some (NInt y) => y' <- float_of_int y ;; float_truediv x y'
  | _, _ =>
      Raise (mkExn TypeError
               ("unsupported operand type(s) for /: '" ++ type_name a
                  ++ "' and '" ++ type_name b ++ "'"))
  end.

(** [x * y] on two [float]s *)
Definition float_mul (x y : pyfloat) : pyfloat := SFmul prec64 emax64 x y.

(** ** Fixed-point formatting, [format(x, ".nf")] *)

(** [m * 2^e * 10^n] rounded to the nearest integer, ties to even. *)
Definition scaled_round (m : positive) (e : Z) (n : nat) : Z :=
  let num := Z.pos m * 10 ^ Z.of_nat n in
  if 0 <=? e then num * 2 ^ e
  else
    let den := 2 ^ (- e) in
    let q := num / den in
    let r := num mod den in
    match 2 * r ?= den with
    | Lt => q
    | Gt => q + 1
    | Eq => if Z.even q then q else q + 1
    end.

Fixpoint zeros (n : nat) : string :=
  match n with
  | O => ""
  | S k => String "0" (zeros k)
  end.

Definition zero_pad (width : nat) (s : string) : string :=
  zeros (width - String.length s) ++ s.

(** The digits of [k / 10^n] with [n] places after the point. *)
Definition fixed_digits (k : Z) (n : nat) : string :=
  match n with
  | O => str_of_int k
  | _ =>
      str_of_int (k / 10 ^ Z.of_nat n) ++ "."
        ++ zero_pad n (str_of_int (k mod 10 ^ Z.of_nat n))
  end.

Definition sign_prefix (s : bool) : string := if s then "-" else "".

Definition format_fixed (n : nat) (x : pyfloat) : string :=
  match x with
  | S754_nan => "nan"
  | S754_infinity s => sign_prefix s ++ "inf"
  | S754_zero s => sign_prefix s ++ fixed_digits 0 n
  | S754_finite s m e => sign_prefix s ++ fixed_digits (scaled_round m e n) n
  end.

(** ** [sorted(d.items())] *)

(** Items are [(key, value)] tuples.  The keys of a dict are distinct, so the
    order of two items is the order of their keys, and the order of two
    strings is the order of their code points, which the bytes of their
    UTF-8 encodings keep. *)
Module ItemOrder <: TotalLeBool.
Definition t : Type := (string * json)%type.
Definition leb (a b : t) : bool := String.leb (fst a) (fst b).
Theorem leb_total : forall a b, leb a b = true \/ leb b a = true.
Proof. intros a b. apply String.leb_total. Qed.
End ItemOrder.

Module ItemSort := Sort ItemOrder.

Definition sorted (d : pydict) : pydict := ItemSort.sort d.

(** [l[:n]] *)
Definition slice_to (n : nat) {A : Type} (l : list A) : list A := firstn n l.

(** ** The book *)

Definition FIXED_CURRENCY_DATA_BASE_URL : string := "https://data.fixer.io/api".
Definition DEFAULT_TIMEOUT : Z := 30.

(** The instance attributes of [FixedCurrencyDataBook]. *)
Record book : Type := mkBook { _base_url : string; _timeout : pyfloat }.

(** [__init__]; [float(30)] is exact. *)
Definition init : book :=
  mkBook FIXED_CURRENCY_DATA_BASE_URL
         (binary_normalize prec64 emax64 DEFAULT_TIMEOUT 0 false).

(** The [timeout] property. *)
Definition timeout (self : book) : pyfloat := _timeout self.

(** [t <= 0], the [int] zero being converted exactly. *)
Definition le_zero (t : pyfloat) : bool := SFleb t (S754_zero false).

(** [0 < t] *)
Definition positive_float (t : pyfloat) : bool := SFltb (S754_zero false) t.

(** The setter of [timeout].  It returns what the assignment does and the
    book after it. *)
Definition timeout_setter (self : book) (t : pyfloat) : outcome unit * book :=
  if le_zero t
  then (Raise (mkExn ValueError "timeout must be positive"), self)
  else (Return tt, mkBook (_base_url self) t).

Definition say_hello (self : book) : string :=
  "Hello from Fixer currency exchange book! Use other procedures with your Fixer.io API key.".

(** ** The HTTP library *)

(** A response object, as far as the book looks at it: what its [json()]
    method does. *)
Record response : Type := mkResponse { json_method : outcome json }.

(** [requests.get(url, timeout=t)] *)
Definition transport : Type := string -> pyfloat -> outcome response.

(** Builtins of the host language that the book calls and does not define:
    [str.upper], [float] on a string ([None] when it raises [ValueError]),
    and [repr] of the values that are not rendered here. *)
Class Builtins : Type := {
  upper : string -> string;
  float_of_str : string -> option pyfloat;
  repr : json -> string
}.

Section Procedures.

Context `{Builtins}.

(** [float(s)]; the handler that catches the exception drops its text. *)
Definition py_float (s : string) : outcome pyfloat :=
  match float_of_str s with
  | Some f => Return f
  | None => Raise (mkExn ValueError "could not convert string to float")
  end.

(** [str(v)], which is what [{v}] in an f-string renders. *)
Definition str (v : json) : string :=
  match v with
  | JStr s => s
  | JNull => "None"
  | JBool true => "True"
  | JBool false => "False"
  | JInt z => str_of_int z
  | _ => repr v
  end.

(** [f"{code}: {value}"] on one item. *)
Definition entry (item : string * json) : string :=
  let '(code, value) := item in code ++ ": " ++ str value.

Variable http : transport.

(** The three lines every procedure runs when [success] is falsy. *)
Definition api_failure (data : json) : outcome string :=
  error <- get data "error" (JDict []) ;;
  info <- get error "info" (JStr "API request failed") ;;
  Return ("Error: " ++ str info).

(** *** [get_rates] *)

Definition get_rates_respond (data : json) : outcome string :=
  success <- get data "success" (JBool false) ;;
  if negb (truthy success) then api_failure data
  else
    base <- get data "base" (JStr "EUR") ;;
    date <- get data "date" (JStr "unknown") ;;
    rates <- get data "rates" (JDict []) ;;
    its <- items rates ;;
    let rate_list := map entry (slice_to 10 (sorted its)) in
    n <- len rates ;;
    Return ("Exchange rates for " ++ str base ++ " on " ++ str date ++ ": "
              ++ join ", " rate_list
              ++ " (and " ++ str_of_int (n - 10) ++ " more currencies available)").

Definition get_rates_try (self : book) (api_key : string) : outcome string :=
  let url := _base_url self ++ "/latest?access_key=" ++ api_key in
  response <- http url (_timeout self) ;;
  data <- json_method response ;;
  get_rates_respond data.

Definition get_rates (self : book) (api_key : string) : outcome string :=
  try_except (get_rates_try self api_key)
    [(is_Exception, fun e => Return ("Error: " ++ exc_str e))].

(** *** [get_specific_rates] *)

Definition get_specific_rates_respond (data : json) : outcome string :=
  success <- get data "success" (JBool false) ;;
  if negb (truthy success) then api_failure data
  else
    base <- get data "base" (JStr "EUR") ;;
    date <- get data "date" (JStr "unknown") ;;
    rates <- get data "rates" (JDict []) ;;
    its <- items rates ;;
    let rate_list := map entry its in
    Return ("Exchange rates for " ++ str base ++ " on " ++ str date ++ ": "
              ++ join ", " rate_list).

Definition get_specific_rates_try (self : book) (currencies api_key : string)
  : outcome string :=
  let url := _base_url self ++ "/latest?access_key=" ++ api_key
               ++ "&symbols=" ++ upper currencies in
  response <- http url (_timeout self) ;;
  data <- json_method response ;;
  get_specific_rates_respond data.

Definition get_specific_rates (self : book) (currencies api_key : string)
  : outcome string :=
  try_except (get_specific_rates_try self currencies api_key)
    [(is_Exception, fun e => Return ("Error: " ++ exc_str e))].

(** *** [convert_currency] *)

Definition convert_currency_respond
  (amount source_currency target_currency : string) (data : json) : outcome string :=
  success <- get data "success" (JBool false) ;;
  if negb (truthy success) then api_failure data
  else
    rates <- get data "rates" (JDict []) ;;
    date <- get data "date" (JStr "unknown") ;;
    source_rate <- get1 rates (upper source_currency) ;;
    target_rate <- get1 rates (upper target_currency) ;;
    if negb (truthy source_rate) || negb (truthy target_rate)
    then Return ("Error: Could not find rates for " ++ source_currency
                   ++ " or " ++ target_currency)
    else
      amount_float <- py_float amount ;;
      conversion_rate <- truediv target_rate source_rate ;;
      let result := float_mul amount_float conversion_rate in
      Return ("Converted " ++ amount ++ " " ++ upper source_currency ++ " to "
                ++ format_fixed 4 result ++ " " ++ upper target_currency
                ++ " (rate: " ++ format_fixed 6 conversion_rate ++ ") on "
                ++ str date).

Definition convert_currency_try
  (self : book) (amount source_currency target_currency api_key : string)
  : outcome string :=
  let symbols := upper source_currency ++ "," ++ upper target_currency in
  let url := _base_url self ++ "/latest?access_key=" ++ api_key
               ++ "&symbols=" ++ symbols in
  response <- http url (_timeout self) ;;
  data <- json_method response ;;
  convert_currency_respond amount source_currency target_currency data.

Definition invalid_amount (amount : string) : string :=
  "Error: Invalid amount '" ++ amount ++ "'. Please provide a numeric value.".

Definition convert_currency
  (self : book) (amount source_currency target_currency api_key : string)
  : outcome string :=
  try_except (convert_currency_try self amount source_currency target_currency api_key)
    [(is_ValueError, fun _ => Return (invalid_amount amount));
     (is_Exception, fun e => Return ("Error: " ++ exc_str e))].

(** *** [check_supported_currencies] *)

Definition check_supported_currencies_respond (data : json) : outcome string :=
  success <- get data "success" (JBool false) ;;
  if negb (truthy success) then api_failure data
  else
    symbols <- get data "symbols" (JDict []) ;;
    its <- items symbols ;;
    let currency_list := map entry (slice_to 20 (sorted its)) in
    n <- len symbols ;;
    Return ("Supported currencies (first 20 of " ++ str_of_int n ++ " total): "
              ++ join ", " currency_list).

Definition check_supported_currencies_try (self : book) (api_key : string)
  : outcome string :=
  let url := _base_url self ++ "/symbols?access_key=" ++ api_key in
  response <- http url (_timeout self) ;;
  data <- json_method response ;;
  check_supported_currencies_respond data.

Definition check_supported_currencies (self : book) (api_key : string)
  : outcome string :=
  try_except (check_supported_currencies_try self api_key)
    [(is_Exception, fun e => Return ("Error: " ++ exc_str e))].

End Procedures.

(** ** Reference builtins *)

(** Instances of the builtins, to run the procedures on concrete inputs.
    A text is the bytes of its UTF-8 encoding.  On text whose characters are
    all below U+0100 (ASCII and Latin-1) they are Python's: [latin_upper] is
    [str.upper], [float_of_decimal] is [float] with its whole grammar (blanks
    around, sign, underscores between digits, point, exponent, [inf],
    [infinity] and [nan] in any case) and one rounding, [python_repr] is
    [repr], with the shortest digits that read back as the same float.  The
    case mapping, the blanks, the digits and the printability of the
    characters from U+0100 on need the Unicode tables and are outside these
    definitions, which keep the bytes of such characters as they are;
    nothing below runs them on such text. *)

Definition upper_char (c : ascii) : ascii :=
  let n := nat_of_ascii c in
  if ((97 <=? n) && (n <=? 122))%nat then ascii_of_nat (n - 32) else c.

(** The letters of Latin-1 take two bytes, the first of which is 195 for
    U+00C0 to U+00FF.  The small letters U+00E0 to U+00FE are 32 above their
    capitals, the division sign U+00F7 apart; the sharp s becomes "SS", and
    the capitals of the micro sign and of y with diaeresis are U+039C and
    U+0178. *)
Fixpoint latin_upper (s : string) : string :=
  match s with
  | EmptyString => EmptyString
  | String c tail =>
      match tail with
      | EmptyString => String (upper_char c) EmptyString
      | String c2 rest =>
          let n := nat_of_ascii c in
          let n2 := nat_of_ascii c2 in
          if (n =? 195)%nat then
            if (n2 =? 159)%nat then String "S" (String "S" (latin_upper rest))
            else if (n2 =? 191)%nat then
              String (ascii_of_nat 197) (String (ascii_of_nat 184) (latin_upper rest))
            else if ((160 <=? n2) && (n2 <=? 190) && negb (n2 =? 183))%nat then
              String c (String (ascii_of_nat (n2 - 32)) (latin_upper rest))
            else String c (String c2 (latin_upper rest))
          else if ((n =? 194) && (n2 =? 181))%nat then
            String (ascii_of_nat 206) (String (ascii_of_nat 156) (latin_upper rest))
          else String (upper_char c) (latin_upper tail)
      end
  end.

Definition lower_char (c : ascii) : ascii :=
  let n := nat_of_ascii c in
  if ((65 <=? n) && (n <=? 90))%nat then ascii_of_nat (n + 32) else c.

Fixpoint ascii_lower (s : string) : string :=
  match s with
  | EmptyString => EmptyString
  | String c rest => String (lower_char c) (ascii_lower rest)
  end.

(** *** [float] on a string *)

Definition digit_value (c : ascii) : option Z :=
  let n := nat_of_ascii c in
  if ((48 <=? n) && (n <=? 57))%nat then Some (Z.of_nat (n - 48)) else None.

Definition is_digit (c : ascii) : bool :=
  match digit_value c with Some _ => true | None => false end.

(** The ASCII blanks that [float] drops at both ends: tab, line feed,
    vertical tab, form feed, carriage return and space. *)
Definition is_space (c : ascii) : bool :=
  let n := nat_of_ascii c in
  (((9 <=? n) && (n <=? 13)) || (n =? 32))%nat.

(** The blanks of Latin-1, U+0085 and U+00A0, count as spaces. *)
Fixpoint latin_blanks (s : string) : string :=
  match s with
  | EmptyString => EmptyString
  | String c tail =>
      match tail with
      | EmptyString => s
      | String c2 rest =>
          if ((nat_of_ascii c =? 194)
              && ((nat_of_ascii c2 =? 133) || (nat_of_ascii c2 =? 160)))%nat
          then String " " (latin_blanks rest)
          else String c (latin_blanks tail)
      end
  end.

Fixpoint lstrip (s : string) : string :=
  match s with
  | String c rest => if is_space c then lstrip rest else s
  | EmptyString => EmptyString
  end.

Fixpoint rstrip (s : string) : string :=
  match s with
  | String c rest =>
      match rstrip rest with
      | EmptyString => if is_space c then EmptyString else String c EmptyString
      | kept => String c kept
      end
  | EmptyString => EmptyString
  end.

(** An underscore stands between two digits. *)
Fixpoint underscores_between_digits (after_digit : bool) (s : string) : bool :=
  match s with
  | EmptyString => true
  | String c rest =>
      if Ascii.eqb c "_" then
        after_digit
        && match rest with String d _ => is_digit d | EmptyString => false end
        && underscores_between_digits false rest
      else underscores_between_digits (is_digit c) rest
  end.

Fixpoint without_underscores (s : string) : string :=
  match s with
  | EmptyString => EmptyString
  | String c rest =>
      if Ascii.eqb c "_" then without_underscores rest
      else String c (without_underscores rest)
  end.

Definition split_sign (s : string) : bool * string :=
  match s with
  | String "-" rest => (true, rest)
  | String "+" rest => (false, rest)
  | _ => (false, s)
  end.

(** The leading digits: their value after [acc], their number after
    [count], and the text that follows them. *)
Fixpoint read_digits (acc : Z) (count : nat) (s : string) : Z * nat * string :=
  match s with
  | EmptyString => (acc, count, EmptyString)
  | String c rest =>
      match digit_value c with
      | Some d => read_digits (10 * acc + d) (S count) rest
      | None => (acc, count, s)
      end
  end.

(** Digits, an optional point and digits, an optional exponent: the digits
    as one integer [n] and the power of ten [e] with value [n * 10^e]. *)
Definition read_number (s : string) : option (Z * Z) :=
  let '(whole, whole_count, after_whole) := read_digits 0 0 s in
  let '(n, frac_count, after_frac) :=
    match after_whole with
    | String "." rest => read_digits whole 0 rest
    | _ => (whole, O, after_whole)
    end in
  match (whole_count + frac_count)%nat with
  | O => None
  | _ =>
      match after_frac with
      | EmptyString => Some (n, - Z.of_nat frac_count)
      | String c rest =>
          if Ascii.eqb (lower_char c) "e" then
            let '(negative, digits) := split_sign rest in
            match read_digits 0 0 digits with
            | (_, O, _) => None
            | (e, _, EmptyString) =>
                Some (n, (if negative then - e else e) - Z.of_nat frac_count)
            | _ => None
            end
          else None
      end
  end.

(** [n / 10^k] rounded once to binary64. *)
Definition decimal_to_float (negative : bool) (n : Z) (k : nat) : pyfloat :=
  match n with
  | Z0 => S754_zero negative
  | _ =>
      let '(q, e, loc) :=
        SFdiv_core_binary prec64 emax64 n 0 (10 ^ Z.of_nat k) 0 in
      binary_round_aux prec64 emax64 negative q e loc
  end.

(** [n * 10^e] rounded once to binary64, for [0 <= n].  Beyond [10^309] the
    value is an infinity and below [10^-324] a zero, whatever the digits. *)
Definition scale_decimal (negative : bool) (n e : Z) : pyfloat :=
  match n with
  | Z0 => S754_zero negative
  | _ =>
      if 309 <=? e then S754_infinity negative
      else if e + Z.log2 n / 3 + 1 <=? -324 then S754_zero negative
      else if 0 <=? e then
        binary_normalize prec64 emax64 ((if negative then -1 else 1) * (n * 10 ^ e)) 0 false
      else decimal_to_float negative n (Z.to_nat (- e))
  end.

Definition float_of_decimal (s : string) : option pyfloat :=
  let text := rstrip (lstrip (latin_blanks s)) in
  if underscores_between_digits false text then
    let '(negative, body) := split_sign (without_underscores text) in
    let word := ascii_lower body in
    if ((word =? "inf") || (word =? "infinity"))%string then Some (S754_infinity negative)
    else if (word =? "nan")%string then Some S754_nan
    else
      match read_number body with
      | Some (n, e) => Some (scale_decimal negative n e)
      | None => None
      end
  else None.

(** *** [repr] *)

(** [x < 10^k] for the positive rational [x = num / den]. *)
Definition below_power_of_ten (num den k : Z) : bool :=
  if 0 <=? k then num <? 10 ^ k * den else num * 10 ^ (- k) <? den.

Fixpoint first_power_above (fuel : nat) (num den k : Z) : Z :=
  match fuel with
  | O => k
  | S fuel' =>
      if below_power_of_ten num den k then k
      else first_power_above fuel' num den (k + 1)
  end.

(** The decimal point of [x = m * 2^e]: the least [k] with [x < 10^k]. *)
Definition decimal_point (m : positive) (e : Z) : Z :=
  let num := if 0 <=? e then Z.pos m * 2 ^ e else Z.pos m in
  let den := if 0 <=? e then 1 else 2 ^ (- e) in
  let bits := Z.pos (digits2_pos m) + e in
  first_power_above 6 num den ((bits - 1) * 30103 / 100000).

Definition same_finite (m : positive) (e : Z) (f : pyfloat) : bool :=
  match f with
  | S754_finite false m' e' => (Pos.eqb m m' && (e =? e'))%bool
  | _ => false
  end.

(** Whether [c * 10^j] reads back as [m * 2^e]. *)
Definition reads_back (m : positive) (e : Z) (c j : Z) : bool :=
  (0 <? c) && same_finite m e (scale_decimal false c j).

(** The [n]-digit decimal that reads back as [m * 2^e] and is nearest to it,
    when there is one: [c] with [m * 2^e] about [c * 10^(point - n)]. *)
Definition digits_of_length (m : positive) (e point : Z) (n : nat) : option Z :=
  let shift := Z.of_nat n - point in
  let num := (if 0 <=? e then Z.pos m * 2 ^ e else Z.pos m)
             * (if 0 <=? shift then 10 ^ shift else 1) in
  let den := (if 0 <=? e then 1 else 2 ^ (- e))
             * (if 0 <=? shift then 1 else 10 ^ (- shift)) in
  let lo := num / den in
  let hi := lo + 1 in
  let lo_ok := reads_back m e lo (- shift) in
  let hi_ok := negb (num mod den =? 0) && reads_back m e hi (- shift) in
  if lo_ok && (negb hi_ok || (num - lo * den <=? hi * den - num)) then Some lo
  else if hi_ok then Some hi
  else None.

(** The shortest such decimal, trying the lengths [n], [n+1], ...; 17 digits
    always read back. *)
Fixpoint shortest_digits (fuel : nat) (m : positive) (e point : Z) (n : nat) : Z * nat :=
  match fuel with
  | O =>
      let shift := Z.of_nat n - point in
      (if 0 <=? shift
       then Z.pos m * (if 0 <=? e then 2 ^ e else 1) * 10 ^ shift
            / (if 0 <=? e then 1 else 2 ^ (- e))
       else Z.pos m * (if 0 <=? e then 2 ^ e else 1)
            / ((if 0 <=? e then 1 else 2 ^ (- e)) * 10 ^ (- shift)), n)
  | S fuel' =>
      match digits_of_length m e point n with
      | Some c => (c, n)
      | None => shortest_digits fuel' m e point (S n)
      end
  end.

Fixpoint strip_trailing_zeros (fuel : nat) (c : Z) : Z :=
  match fuel with
  | O => c
  | S fuel' => if (0 <? c) && (c mod 10 =? 0) then strip_trailing_zeros fuel' (c / 10) else c
  end.

(** At least two digits of exponent, with its sign. *)
Definition exponent_text (x : Z) : string :=
  (if x <? 0 then "-" else "+")
    ++ (if Z.abs x <? 10 then "0" else "") ++ str_of_int (Z.abs x).

(** The digits [ds] with the point after the first [point] of them. *)
Definition place_point (ds : string) (point : Z) : string :=
  let n := Z.of_nat (String.length ds) in
  if (-4 <? point) && (point <=? 16) then
    if point <=? 0 then "0." ++ zeros (Z.to_nat (- point)) ++ ds
    else if n <=? point then ds ++ zeros (Z.to_nat (point - n)) ++ ".0"
    else substring 0 (Z.to_nat point) ds ++ "."
           ++ substring (Z.to_nat point) (Z.to_nat (n - point)) ds
  else
    substring 0 1 ds
      ++ (if 1 <? n then "." ++ substring 1 (Z.to_nat (n - 1)) ds else "")
      ++ "e" ++ exponent_text (point - 1).

Definition float_repr (x : pyfloat) : string :=
  match x with
  | S754_nan => "nan"
  | S754_infinity s => sign_prefix s ++ "inf"
  | S754_zero s => sign_prefix s ++ "0.0"
  | S754_finite s m e =>
      let point := decimal_point m e in
      let '(c, n) := shortest_digits 17 m e point 1 in
      let all := str_of_int c in
      let ds := str_of_int (strip_trailing_zeros 20 c) in
      sign_prefix s
        ++ place_point ds (point + Z.of_nat (String.length all) - Z.of_nat n)
  end.

Fixpoint contains (c : ascii) (s : string) : bool :=
  match s with
  | EmptyString => false
  | String x rest => Ascii.eqb x c || contains c rest
  end.

Definition hex_digit (n : nat) : ascii :=
  if (n <? 10)%nat then ascii_of_nat (48 + n) else ascii_of_nat (87 + n).

Definition escape_char (quote c : ascii) : string :=
  let n := nat_of_ascii c in
  if Ascii.eqb c quote || Ascii.eqb c (ascii_of_nat 92) then String (ascii_of_nat 92) (String c EmptyString)
  else if (n =? 9)%nat then String (ascii_of_nat 92) "t"
  else if (n =? 10)%nat then String (ascii_of_nat 92) "n"
  else if (n =? 13)%nat then String (ascii_of_nat 92) "r"
  else if ((n <? 32) || (n =? 127))%nat then
    String (ascii_of_nat 92) (String "x" (String (hex_digit (n / 16)) (String (hex_digit (n mod 16)) EmptyString)))
  else String c EmptyString.

(** The characters U+0080 to U+00A0 and U+00AD do not print and are
    escaped like the control characters of ASCII. *)
Fixpoint escape (quote : ascii) (s : string) : string :=
  match s with
  | EmptyString => EmptyString
  | String c tail =>
      match tail with
      | EmptyString => escape_char quote c
      | String c2 rest =>
          let n2 := nat_of_ascii c2 in
          if ((nat_of_ascii c =? 194) && ((n2 <=? 160) || (n2 =? 173)))%nat then
            String (ascii_of_nat 92)
              (String "x" (String (hex_digit (n2 / 16)) (String (hex_digit (n2 mod 16))
                                                              (escape quote rest))))
          else escape_char quote c ++ escape quote tail
      end
  end.

(** Single quotes, or double quotes around a text that has single quotes
    and no double quote. *)
Definition str_repr (s : string) : string :=
  let double_quote := ascii_of_nat 34 in
  let quote := if contains "'" s && negb (contains double_quote s) then double_quote else "'"%char in
  String quote (escape quote s ++ String quote EmptyString).

Fixpoint python_repr (v : json) : string :=
  match v with
  | JNull => "None"
  | JBool true => "True"
  | JBool false => "False"
  | JInt z => str_of_int z
  | JFloat f => float_repr f
  | JStr s => str_repr s
  | JList l =>
      "[" ++ String.concat ", "
               ((fix each (l : list json) : list string :=
                   match l with
                   | [] => []
                   | x :: rest => python_repr x :: each rest
                   end) l)
        ++ "]"
  | JDict d =>
      "{" ++ String.concat ", "
               ((fix each (d : list (string * json)) : list string :=
                   match d with
                   | [] => []
                   | (k, x) :: rest => (str_repr k ++ ": " ++ python_repr x) :: each rest
                   end) d)
        ++ "}"
  end.

Definition reference_builtins : Builtins :=
  {| upper := latin_upper; float_of_str := float_of_decimal; repr := python_repr |}.

(** The floats of the conversion example: [100.0], [1.0] and [0.85]. *)
Definition float_100 : pyfloat := S754_finite false 7036874417766400 (-46).
Definition float_1 : pyfloat := S754_finite false 4503599627370496 (-52).
Definition float_0_85 : pyfloat := S754_finite false 7656119366529843 (-53).

(** ** Vocabulary of the statements *)

(** The URLs the procedures request. *)
Definition latest_url (self : book) (api_key : string) : string :=
  _base_url self ++ "/latest?access_key=" ++ api_key.

Definition latest_symbols_url (self : book) (api_key symbols : string) : string :=
  _base_url self ++ "/latest?access_key=" ++ api_key ++ "&symbols=" ++ symbols.

Definition symbols_url (self : book) (api_key : string) : string :=
  _base_url self ++ "/symbols?access_key=" ++ api_key.

(** What the transport and the parser together give for one request. *)
Definition fetch (http : transport) (url : string) (t : pyfloat) : outcome json :=
  response <- http url t ;; json_method response.

(** The text is an error report. *)
Definition error_text (s : string) : Prop := String.prefix "Error: " s = true.

(** The document is an object whose [success] member is truthy. *)
Definition reports_success (data : json) : bool :=
  match data with
  | JDict d => truthy (dict_get_default d "success" (JBool false))
  | _ => false
  end.

(** A procedure keeps the text-only contract: it returns a text, and the text
    is an error report whenever the request failed, the block under [try]
    raised, or the document did not report success. *)
Definition text_contract
  (result attempt : outcome string) (fetched : outcome json) : Prop :=
  exists s,
    result = Return s
    /\ (forall e, fetched = Raise e -> error_text s)
    /\ (forall e, attempt = Raise e -> error_text s)
    /\ (forall data, fetched = Return data -> reports_success data = false ->
        error_text s).

(** Strict order of two items by key. *)
Definition key_lt (a b : string * json) : Prop := String.ltb (fst a) (fst b) = true.

(** [shown] is the [n] items of [its] with the smallest keys, in ascending
    order of key. *)
Definition first_by_key (n : nat) (its shown : pydict) : Prop :=
  List.length shown = n
  /\ StronglySorted key_lt shown
  /\ incl shown its
  /\ (forall x y, In x its -> ~ In x shown -> In y shown -> key_lt y x).

(** Two transports that answer alike at the timeout [t]. *)
Definition same_at (t : pyfloat) (http http' : transport) : Prop :=
  forall url, http url t = http' url t.

(** The value is a number equal to zero: [0], [0.0], [-0.0] or [False]. *)
Definition zero_number (v : json) : bool :=
  match as_number v with
  | Some (NInt z) => z =? 0
  | Some (NFloat f) => is_zero f
  | None => false
  end.

(** ** Sample transports and documents *)

(** A transport that answers every request with the document [data], and one
    whose answers have a body the parser rejects with [e]. *)
Definition serve (data : json) : transport :=
  fun _ _ => Return (mkResponse (Return data)).

Definition serve_unparsable (e : exn) : transport :=
  fun _ _ => Return (mkResponse (Raise e)).

Definition usd_eur_rates : pydict :=
  [("USD", JFloat float_1); ("EUR", JFloat float_0_85)].

Definition usd_eur_fields : pydict :=
  [("success", JBool true); ("timestamp", JInt 1705276800);
         ("base", JStr "EUR"); ("date", JStr "2024-01-15");
         ("rates", JDict usd_eur_rates)].

Definition usd_eur_document : json := JDict usd_eur_fields.



Definition zero_usd_fields : pydict :=
  [("success", JBool true); ("date", JStr "2024-01-15");
         ("rates", JDict [("USD", JInt 0); ("EUR", JFloat float_0_85)])].

Definition zero_usd_document : json := JDict zero_usd_fields.

Definition invalid_key_fields : pydict :=
  [("success", JBool false);
         ("error", JDict [("code", JInt 101); ("info", JStr "invalid access key")])].

Definition invalid_key_document : json := JDict invalid_key_fields.

Definition bare_failure_fields : pydict :=
  [("success", JBool false); ("error", JDict [("code", JInt 104)])].

Definition bare_failure_document : json := JDict bare_failure_fields.

Definition twelve_rates : pydict :=
  [("USD", JInt 108); ("EUR", JInt 1); ("GBP", JInt 2); ("JPY", JInt 160);
   ("AUD", JInt 3); ("CAD", JInt 4); ("CHF", JInt 5); ("CNY", JInt 7);
   ("SEK", JInt 11); ("NZD", JInt 6); ("MXN", JInt 18); ("AED", JInt 9)].

Definition twelve_rates_fields : pydict :=
  [("success", JBool true); ("base", JStr "EUR"); ("date", JStr "2024-01-15");
         ("rates", JDict twelve_rates)].

Definition twelve_rates_document : json := JDict twelve_rates_fields.

Definition twenty_two_symbols : pydict :=
  [("USD", JStr "United States Dollar"); ("EUR", JStr "Euro");
   ("AED", JStr "United Arab Emirates Dirham"); ("AFN", JStr "Afghan Afghani");
   ("ALL", JStr "Albanian Lek"); ("AMD", JStr "Armenian Dram");
   ("ANG", JStr "Netherlands Antillean Guilder"); ("AOA", JStr "Angolan Kwanza");
   ("ARS", JStr "Argentine Peso"); ("AUD", JStr "Australian Dollar");
   ("AWG", JStr "Aruban Florin"); ("AZN", JStr "Azerbaijani Manat");
   ("BAM", JStr "Bosnia-Herzegovina Convertible Mark"); ("BBD", JStr "Barbadian Dollar");
   ("BDT", JStr "Bangladeshi Taka"); ("BGN", JStr "Bulgarian Lev");
   ("BHD", JStr "Bahraini Dinar"); ("BIF", JStr "Burundian Franc");
   ("BMD", JStr "Bermudan Dollar"); ("BND", JStr "Brunei Dollar");
   ("BOB", JStr "Bolivian Boliviano"); ("BRL", JStr "Brazilian Real")].

Definition twenty_two_symbols_fields : pydict :=
  [("success", JBool true); ("symbols", JDict twenty_two_symbols)].

Definition twenty_two_symbols_document : json := JDict twenty_two_symbols_fields.

(** [5.0], [-2.0] and the text of a parse error. *)
Definition float_5 : pyfloat := S754_finite false 5629499534213120 (-50).
Definition float_minus_2 : pyfloat := S754_finite true 4503599627370496 (-51).

Definition parse_error : exn :=
  mkExn (LibraryError true) "Expecting value: line 1 column 1 (char 0)".

(** ** Further vocabulary *)

(** The document is a JSON object. *)
Definition is_object (data : json) : bool :=
  match data with
  | JDict _ => true
  | _ => false
  end.

(** The book after the assignments [book.timeout = t] for the [t] of [ts] in
    turn, the caller going on after an assignment that raised. *)
Definition set_timeouts (self : book) (ts : list pyfloat) : book :=
  fold_left (fun b t => snd (timeout_setter b t)) ts self.

(** A transport that knows one URL only. *)
Definition serve_only (url : string) (data : json) : transport :=
  fun u _ =>
    if (u =? url)%string then Return (mkResponse (Return data))
    else Raise (mkExn (LibraryError false) "404 Client Error: Not Found").

Definition two_symbols : pydict :=
  [("USD", JStr "United States Dollar"); ("EUR", JStr "Euro")].

Definition two_symbols_fields : pydict :=
  [("success", JBool true); ("symbols", JDict two_symbols)].

Definition two_symbols_document : json := JDict two_symbols_fields.

(** The twelve rates in another order. *)
Definition twelve_rates_shuffled : pydict :=
  [("AED", JInt 9); ("MXN", JInt 18); ("NZD", JInt 6); ("SEK", JInt 11);
   ("CNY", JInt 7); ("CHF", JInt 5); ("CAD", JInt 4); ("AUD", JInt 3);
   ("JPY", JInt 160); ("GBP", JInt 2); ("EUR", JInt 1); ("USD", JInt 108)].

Definition twelve_rates_shuffled_fields : pydict :=
  [("date", JStr "2024-01-15"); ("rates", JDict twelve_rates_shuffled);
   ("base", JStr "EUR"); ("success", JBool true)].

Definition text_rates_fields : pydict :=
  [("success", JBool true);
   ("rates", JDict [("USD", JStr "1.0"); ("EUR", JFloat float_0_85)])].

Definition bare_success_fields : pydict := [("success", JBool true)].

Definition timed_out : exn := mkExn (LibraryError false) "Read timed out.".

(** * Properties *)

(** ** The monad and the handlers *)

Lemma error_text_intro (s : string) : error_text ("Error: " ++ s).
Proof. unfold error_text. simpl. destruct s; reflexivity. Qed.

Lemma invalid_amount_error (amount : string) : error_text (invalid_amount amount).
Proof. unfold error_text, invalid_amount. reflexivity. Qed.

Lemma bind_Return {A B : Type} (m : outcome A) (k : A -> outcome B) (b : B) :
  bind m k = Return b -> exists a, m = Return a /\ k a = Return b.
Proof. destruct m as [a|e]; simpl; intros E; [eauto | discriminate]. Qed.

Lemma bind_Raise {A B : Type} (m : outcome A) (k : A -> outcome B) (e : exn) :
  bind m k = Raise e -> m = Raise e \/ exists a, m = Return a /\ k a = Raise e.
Proof.
  destruct m as [a|e']; simpl; intros E; [right; eauto | left].
  now injection E as ->.
Qed.

(** A block whose only clause is [except Exception as e] returns the text of
    its body, or the report of what the body raised. *)
Lemma catch_all (body : outcome string) :
  try_except body [(is_Exception, fun e => Return ("Error: " ++ exc_str e))]
  = match body with
    | Return s => Return s
    | Raise e => Return ("Error: " ++ exc_str e)
    end.
Proof. destruct body; reflexivity. Qed.

(** The two clauses of [convert_currency]. *)
Lemma catch_value_error (amount : string) (body : outcome string) :
  try_except body
    [(is_ValueError, fun _ => Return (invalid_amount amount));
     (is_Exception, fun e => Return ("Error: " ++ exc_str e))]
  = match body with
    | Return s => Return s
    | Raise e =>
        if is_ValueError e then Return (invalid_amount amount)
        else Return ("Error: " ++ exc_str e)
    end.
Proof. destruct body as [s|e]; simpl; [|destruct (is_ValueError e)]; reflexivity. Qed.

Section Responses.

Context `{Builtins}.

Lemma api_failure_error (data : json) (s : string) :
  api_failure data = Return s -> error_text s.
Proof.
  unfold api_failure. intros E.
  apply bind_Return in E as (error & _ & E).
  apply bind_Return in E as (info & _ & E).
  injection E as <-. apply error_text_intro.
Qed.

Lemma get_success (data : json) (v : json) :
  get data "success" (JBool false) = Return v ->
  truthy v = reports_success data.
Proof. destruct data; simpl; intros E; try discriminate. now injection E as <-. Qed.

(** With [success] falsy each procedure runs [api_failure] and nothing else. *)
Lemma get_rates_respond_failure (data : json) :
  reports_success data = false ->
  get_rates_respond data = (_ <- get data "success" (JBool false) ;; api_failure data).
Proof.
  intros F. unfold get_rates_respond.
  destruct (get data "success" (JBool false)) as [v|e] eqn:E; simpl; [|reflexivity].
  now rewrite (get_success _ _ E), F.
Qed.

Lemma get_specific_rates_respond_failure (data : json) :
  reports_success data = false ->
  get_specific_rates_respond data
  = (_ <- get data "success" (JBool false) ;; api_failure data).
Proof.
  intros F. unfold get_specific_rates_respond.
  destruct (get data "success" (JBool false)) as [v|e] eqn:E; simpl; [|reflexivity].
  now rewrite (get_success _ _ E), F.
Qed.

Lemma convert_currency_respond_failure (amount source target : string) (data : json) :
  reports_success data = false ->
  convert_currency_respond amount source target data
  = (_ <- get data "success" (JBool false) ;; api_failure data).
Proof.
  intros F. unfold convert_currency_respond.
  destruct (get data "success" (JBool false)) as [v|e] eqn:E; simpl; [|reflexivity].
  now rewrite (get_success _ _ E), F.
Qed.

Lemma check_supported_currencies_respond_failure (data : json) :
  reports_success data = false ->
  check_supported_currencies_respond data
  = (_ <- get data "success" (JBool false) ;; api_failure data).
Proof.
  intros F. unfold check_supported_currencies_respond.
  destruct (get data "success" (JBool false)) as [v|e] eqn:E; simpl; [|reflexivity].
  now rewrite (get_success _ _ E), F.
Qed.

Lemma failure_branch_error (data : json) (s : string) :
  (_ <- get data "success" (JBool false) ;; api_failure data) = Return s ->
  error_text s.
Proof.
  intros E. apply bind_Return in E as (v & _ & E). eapply api_failure_error, E.
Qed.

End Responses.

(** ** The text-only contract (C1) *)

Lemma bind_assoc {A B C : Type} (m : outcome A) (f : A -> outcome B) (g : B -> outcome C) :
  bind (bind m f) g = bind m (fun a => bind (f a) g).
Proof. destruct m; reflexivity. Qed.

(** A block that fetches a document and renders it keeps the contract as soon
    as its handlers turn every exception into an error report and the
    renderer reports the documents that do not claim success. *)
Lemma contract_of_attempt
  (respond : json -> outcome string) (fetched : outcome json) (result : outcome string) :
  (forall data s, reports_success data = false -> respond data = Return s -> error_text s) ->
  match bind fetched respond with
  | Return s => result = Return s
  | Raise e => exists s, result = Return s /\ error_text s
  end ->
  text_contract result (bind fetched respond) fetched.
Proof.
  intros Hfail Hres. unfold text_contract.
  destruct fetched as [data|e0]; simpl in *.
  - destruct (respond data) as [s|e] eqn:E.
    + exists s. repeat split; try discriminate; try assumption.
      intros data' [= <-] F. eapply Hfail; eassumption.
    + destruct Hres as (s & -> & Hs). exists s.
      repeat split; try discriminate; auto.
  - destruct Hres as (s & -> & Hs). exists s. repeat split; auto; discriminate.
Qed.

Section Contract.

Context `{Builtins}.
Variable http : transport.

Lemma get_rates_try_fetch (self : book) (api_key : string) :
  get_rates_try http self api_key
  = bind (fetch http (latest_url self api_key) (_timeout self)) get_rates_respond.
Proof. unfold get_rates_try, fetch, latest_url. now rewrite bind_assoc. Qed.

Lemma get_specific_rates_try_fetch (self : book) (currencies api_key : string) :
  get_specific_rates_try http self currencies api_key
  = bind (fetch http (latest_symbols_url self api_key (upper currencies)) (_timeout self))
      get_specific_rates_respond.
Proof.
  unfold get_specific_rates_try, fetch, latest_symbols_url. now rewrite bind_assoc.
Qed.

Lemma convert_currency_try_fetch (self : book) (amount source target api_key : string) :
  convert_currency_try http self amount source target api_key
  = bind (fetch http
            (latest_symbols_url self api_key (upper source ++ "," ++ upper target))
            (_timeout self))
      (convert_currency_respond amount source target).
Proof.
  unfold convert_currency_try, fetch, latest_symbols_url. now rewrite bind_assoc.
Qed.

Lemma check_supported_currencies_try_fetch (self : book) (api_key : string) :
  check_supported_currencies_try http self api_key
  = bind (fetch http (symbols_url self api_key) (_timeout self))
      check_supported_currencies_respond.
Proof.
  unfold check_supported_currencies_try, fetch, symbols_url. now rewrite bind_assoc.
Qed.

(** C1. Whatever the transport and the parser do, an exception raised
    included, each of the four fetching procedures returns a text and
    raises nothing; the text begins with "Error: " when the request or the
    parse failed, when anything under [try] raised, and when the document
    did not report success. *)
Theorem fetch_procedures_return_text
  (self : book) (api_key currencies amount source target : string) :
  text_contract
    (get_rates http self api_key)
    (get_rates_try http self api_key)
    (fetch http (latest_url self api_key) (_timeout self))
  /\ text_contract
       (get_specific_rates http self currencies api_key)
       (get_specific_rates_try http self currencies api_key)
       (fetch http (latest_symbols_url self api_key (upper currencies)) (_timeout self))
  /\ text_contract
       (convert_currency http self amount source target api_key)
       (convert_currency_try http self amount source target api_key)
       (fetch http
          (latest_symbols_url self api_key (upper source ++ "," ++ upper target))
          (_timeout self))
  /\ text_contract
       (check_supported_currencies http self api_key)
       (check_supported_currencies_try http self api_key)
       (fetch http (symbols_url self api_key) (_timeout self)).
Proof.
  repeat split.
  - unfold get_rates. rewrite catch_all, get_rates_try_fetch.
    apply contract_of_attempt.
    + intros data s F E. rewrite (get_rates_respond_failure _ F) in E.
      eapply failure_branch_error, E.
    + destruct (bind _ _); [reflexivity | eexists; split; [reflexivity | apply error_text_intro]].
  - unfold get_specific_rates. rewrite catch_all, get_specific_rates_try_fetch.
    apply contract_of_attempt.
    + intros data s F E. rewrite (get_specific_rates_respond_failure _ F) in E.
      eapply failure_branch_error, E.
    + destruct (bind _ _); [reflexivity | eexists; split; [reflexivity | apply error_text_intro]].
  - unfold convert_currency. rewrite catch_value_error, convert_currency_try_fetch.
    apply contract_of_attempt.
    + intros data s F E. rewrite (convert_currency_respond_failure _ _ _ _ F) in E.
      eapply failure_branch_error, E.
    + destruct (bind _ _) as [s|e]; [reflexivity|].
      destruct (is_ValueError e); eexists; (split; [reflexivity|]).
      * apply invalid_amount_error.
      * apply error_text_intro.
  - unfold check_supported_currencies.
    rewrite catch_all, check_supported_currencies_try_fetch.
    apply contract_of_attempt.
    + intros data s F E. rewrite (check_supported_currencies_respond_failure _ F) in E.
      eapply failure_branch_error, E.
    + destruct (bind _ _); [reflexivity | eexists; split; [reflexivity | apply error_text_intro]].
Qed.

End Contract.

(** ** Each procedure on a parsed document *)

Section OnDocuments.

Context `{Builtins}.
Variable http : transport.

Lemma get_rates_fetched (self : book) (api_key : string) (data : json) :
  fetch http (latest_url self api_key) (_timeout self) = Return data ->
  get_rates http self api_key
  = match get_rates_respond data with
    | Return s => Return s
    | Raise e => Return ("Error: " ++ exc_str e)
    end.
Proof.
  intros F. unfold get_rates. now rewrite catch_all, get_rates_try_fetch, F.
Qed.

Lemma get_specific_rates_fetched
  (self : book) (currencies api_key : string) (data : json) :
  fetch http (latest_symbols_url self api_key (upper currencies)) (_timeout self)
  = Return data ->
  get_specific_rates http self currencies api_key
  = match get_specific_rates_respond data with
    | Return s => Return s
    | Raise e => Return ("Error: " ++ exc_str e)
    end.
Proof.
  intros F. unfold get_specific_rates.
  now rewrite catch_all, get_specific_rates_try_fetch, F.
Qed.

Lemma convert_currency_fetched
  (self : book) (amount source target api_key : string) (data : json) :
  fetch http (latest_symbols_url self api_key (upper source ++ "," ++ upper target))
    (_timeout self) = Return data ->
  convert_currency http self amount source target api_key
  = match convert_currency_respond amount source target data with
    | Return s => Return s
    | Raise e =>
        if is_ValueError e then Return (invalid_amount amount)
        else Return ("Error: " ++ exc_str e)
    end.
Proof.
  intros F. unfold convert_currency.
  now rewrite catch_value_error, convert_currency_try_fetch, F.
Qed.

Lemma check_supported_currencies_fetched (self : book) (api_key : string) (data : json) :
  fetch http (symbols_url self api_key) (_timeout self) = Return data ->
  check_supported_currencies http self api_key
  = match check_supported_currencies_respond data with
    | Return s => Return s
    | Raise e => Return ("Error: " ++ exc_str e)
    end.
Proof.
  intros F. unfold check_supported_currencies.
  now rewrite catch_all, check_supported_currencies_try_fetch, F.
Qed.

(** [api_failure] on an object whose [error] member is an object, or is
    missing. *)
Lemma api_failure_info (d e : pydict) :
  dict_get_default d "error" (JDict []) = JDict e ->
  api_failure (JDict d)
  = Return ("Error: " ++ match lookup "info" e with
                         | Some info => str info
                         | None => "API request failed"
                         end).
Proof.
  intros E. unfold api_failure. simpl. rewrite E. simpl.
  unfold dict_get_default. now destruct (lookup "info" e).
Qed.

(** The success branch of [convert_currency], once the rates are known. *)
Lemma convert_currency_respond_success
  (amount source target : string) (d rates : pydict) :
  truthy (dict_get_default d "success" (JBool false)) = true ->
  dict_get_default d "rates" (JDict []) = JDict rates ->
  convert_currency_respond amount source target (JDict d)
  = let source_rate := dict_get rates (upper source) in
    let target_rate := dict_get rates (upper target) in
    if negb (truthy source_rate) || negb (truthy target_rate)
    then Return ("Error: Could not find rates for " ++ source ++ " or " ++ target)
    else
      amount_float <- py_float amount ;;
      conversion_rate <- truediv target_rate source_rate ;;
      Return ("Converted " ++ amount ++ " " ++ upper source ++ " to "
                ++ format_fixed 4 (float_mul amount_float conversion_rate)
                ++ " " ++ upper target
                ++ " (rate: " ++ format_fixed 6 conversion_rate ++ ") on "
                ++ str (dict_get_default d "date" (JStr "unknown"))).
Proof.
  intros S R. unfold convert_currency_respond.
  cbv [get bind]. rewrite S. cbv [negb]. rewrite R. cbv [get1 get]. reflexivity.
Qed.

End OnDocuments.

(** ** [convert_currency] *)

(** The arithmetic of the example: [0.85 / 1.0] is [0.85], [100.0 * 0.85] is
    [85.0] on binary64, and the two renderings. *)
Lemma conversion_example :
  truediv (JFloat float_0_85) (JFloat float_1) = Return float_0_85
  /\ format_fixed 4 (float_mul float_100 float_0_85) = "85.0000"
  /\ format_fixed 6 float_0_85 = "0.850000".
Proof. repeat split; vm_compute; reflexivity. Qed.

Lemma lookup_get_default (d : pydict) (key : string) (v default : json) :
  lookup key d = Some v -> dict_get_default d key default = v.
Proof. unfold dict_get_default. now intros ->. Qed.

Section Convert.

Context `{Builtins}.
Variable http : transport.

(** C2. Converting "100" from "USD" to "EUR" on a success response whose
    rates hold 1.0 for USD and 0.85 for EUR and whose date is [date]
    returns "Converted 100 USD to 85.0000 EUR (rate: 0.850000) on "
    followed by the date: the amount as typed, the result with 4 decimals,
    the rate with 6. *)
Theorem convert_100_usd_to_eur
  (self : book) (api_key date : string) (d rates : pydict) :
  upper "USD" = "USD" ->
  upper "EUR" = "EUR" ->
  float_of_str "100" = Some float_100 ->
  fetch http (latest_symbols_url self api_key "USD,EUR") (_timeout self)
  = Return (JDict d) ->
  lookup "success" d = Some (JBool true) ->
  lookup "date" d = Some (JStr date) ->
  lookup "rates" d = Some (JDict rates) ->
  lookup "USD" rates = Some (JFloat float_1) ->
  lookup "EUR" rates = Some (JFloat float_0_85) ->
  convert_currency http self "100" "USD" "EUR" api_key
  = Return ("Converted 100 USD to 85.0000 EUR (rate: 0.850000) on " ++ date).
Proof.
  intros HU HE H100 F S D R RU RE.
  rewrite (convert_currency_fetched http self "100" "USD" "EUR" api_key (JDict d))
    by (rewrite HU, HE; exact F).
  rewrite (convert_currency_respond_success "100" "USD" "EUR" d rates);
    [| now rewrite (lookup_get_default _ _ _ _ S)
     | now apply lookup_get_default ].
  cbv zeta. rewrite HU, HE. unfold dict_get.
  rewrite (lookup_get_default _ _ _ _ RU), (lookup_get_default _ _ _ _ RE).
  rewrite (lookup_get_default _ _ _ _ D).
  unfold py_float. rewrite H100.
  destruct conversion_example as (Q & P4 & P6).
  change (truthy (JFloat float_1)) with true.
  change (truthy (JFloat float_0_85)) with true.
  cbv [negb orb bind]. rewrite Q, P4, P6. reflexivity.
Qed.


End Convert.

(** ** Rounding an [int] to a [float] *)

(** The lemmas of this part show that a nonzero [int] never rounds to a zero
    [float]: the mantissa keeps its leading bit through both shifts of
    [binary_round_aux]. *)

Lemma digits2_pos_bounds (m : positive) :
  2 ^ (Z.pos (digits2_pos m) - 1) <= Z.pos m < 2 ^ Z.pos (digits2_pos m).
Proof.
  induction m as [m IH|m IH|]; simpl digits2_pos; [| |simpl; lia];
    rewrite Pos2Z.inj_succ;
    replace (Z.succ (Z.pos (digits2_pos m)) - 1) with (Z.succ (Z.pos (digits2_pos m) - 1)) by lia;
    rewrite !Z.pow_succ_r by lia; lia.
Qed.

Lemma digits_lower (m : positive) (k : Z) :
  2 ^ (k - 1) <= Z.pos m -> k <= Z.pos (digits2_pos m).
Proof.
  intros B. destruct (Z.le_gt_cases k (Z.pos (digits2_pos m))) as [L|G]; [exact L|].
  destruct (digits2_pos_bounds m) as [_ U].
  assert (2 ^ Z.pos (digits2_pos m) <= 2 ^ (k - 1)) by (apply Z.pow_le_mono_r; lia).
  lia.
Qed.

Lemma shr_1_m (mrs : shr_record) :
  0 <= shr_m mrs -> shr_m (shr_1 mrs) = shr_m mrs / 2.
Proof.
  destruct mrs as [m r s]. simpl shr_m at 1 3. intros P.
  rewrite <- Z.div2_div.
  destruct m as [|[p|p|]|p]; try reflexivity; lia.
Qed.

Lemma iter_pos_shr_1 (p : positive) : forall mrs,
  0 <= shr_m mrs -> shr_m (iter_pos shr_1 p mrs) = shr_m mrs / 2 ^ Z.pos p.
Proof.
  induction p as [p IH|p IH|]; intros mrs P; simpl iter_pos.
  - assert (P1 : 0 <= shr_m (shr_1 mrs)) by (rewrite shr_1_m by exact P; apply Z.div_pos; lia).
    assert (P2 : 0 <= shr_m (iter_pos shr_1 p (shr_1 mrs)))
      by (rewrite IH by exact P1; apply Z.div_pos; [lia | apply Z.pow_pos_nonneg; lia]).
    rewrite IH, IH, shr_1_m by assumption.
    rewrite !Z.div_div by (try apply Z.pow_pos_nonneg; lia).
    f_equal. replace (Z.pos p~1) with (Z.pos p + Z.pos p + 1) by lia.
    rewrite !Z.pow_add_r, Z.pow_1_r by lia. ring.
  - assert (P2 : 0 <= shr_m (iter_pos shr_1 p mrs))
      by (rewrite IH by exact P; apply Z.div_pos; [lia | apply Z.pow_pos_nonneg; lia]).
    rewrite IH, IH by assumption.
    rewrite !Z.div_div by (try apply Z.pow_pos_nonneg; lia).
    f_equal. replace (Z.pos p~0) with (Z.pos p + Z.pos p) by lia.
    rewrite !Z.pow_add_r by lia. ring.
  - rewrite shr_1_m by exact P. reflexivity.
Qed.

Lemma shr_m_shr (mrs : shr_record) (e n : Z) :
  0 <= shr_m mrs ->
  shr_m (fst (shr mrs e n)) = shr_m mrs / 2 ^ Z.max n 0
  /\ snd (shr mrs e n) = e + Z.max n 0.
Proof.
  intros P. destruct n as [|p|p]; simpl shr; cbn [fst snd].
  - rewrite Z.div_1_r. split; [reflexivity | simpl; lia].
  - rewrite iter_pos_shr_1 by exact P. split; [reflexivity | simpl; lia].
  - rewrite Z.div_1_r. split; [reflexivity | simpl; lia].
Qed.

Lemma shr_m_of_loc (m : Z) (l : location) : shr_m (shr_record_of_loc m l) = m.
Proof. destruct l as [|[]]; reflexivity. Qed.

Lemma round_nearest_even_bounds (m : Z) (l : location) :
  m <= round_nearest_even m l <= m + 1.
Proof. destruct l as [|[]]; simpl; try destruct (Z.even m); lia. Qed.

Lemma binary_round_aux_not_zero (s : bool) (m : positive) (e : Z) (l : location) :
  -1021 <= Z.pos (digits2_pos m) + e ->
  forall z, binary_round_aux prec64 emax64 s (Z.pos m) e l <> S754_zero z.
Proof.
  intros B z. unfold prec64, emax64, binary_round_aux.
  destruct (shr_fexp 53 1024 (Z.pos m) e l) as [mrs' e'] eqn:E1.
  set (m1 := round_nearest_even (shr_m mrs') (loc_of_shr_record mrs')).
  destruct (shr_fexp 53 1024 m1 e' loc_Exact) as [mrs'' e''] eqn:E2.
  unfold shr_fexp in E1, E2.
  pose proof (digits2_pos_bounds m) as [Lm Um].
  destruct (shr_m_shr (shr_record_of_loc (Z.pos m) l) e
              (fexp 53 1024 (Zdigits2 (Z.pos m) + e) - e)) as [M1 X1];
    [rewrite shr_m_of_loc; lia|].
  rewrite E1 in M1, X1. cbn [fst snd] in M1, X1. rewrite shr_m_of_loc in M1.
  unfold fexp, emin in M1, X1. simpl Zdigits2 in M1, X1.
  set (d := Z.pos (digits2_pos m)) in *.
  assert (Hd : 1 <= d) by (unfold d; lia).
  set (n := Z.max (Z.max (d + e - 53) (3 - 1024 - 53) - e) 0) in *.
  assert (Hn : 0 <= n < d) by (unfold n; lia).
  assert (L1 : 2 ^ (d - n - 1) <= shr_m mrs').
  { rewrite M1. replace (d - 1) with ((d - n - 1) + n) in Lm by lia.
    rewrite Z.pow_add_r in Lm by lia.
    apply Z.div_le_lower_bound; [apply Z.pow_pos_nonneg; lia | lia]. }
  pose proof (round_nearest_even_bounds (shr_m mrs') (loc_of_shr_record mrs')) as R.
  fold m1 in R.
  assert (P1 : 0 < m1) by (assert (0 < 2 ^ (d - n - 1)) by (apply Z.pow_pos_nonneg; lia); lia).
  destruct m1 as [|p1|p1] eqn:Em1; try lia.
  pose proof (digits2_pos_bounds p1) as [Lp Up].
  assert (D1 : d - n <= Z.pos (digits2_pos p1)) by (apply digits_lower; lia).
  destruct (shr_m_shr (shr_record_of_loc (Z.pos p1) loc_Exact) e'
              (fexp 53 1024 (Zdigits2 (Z.pos p1) + e') - e')) as [M2 _];
    [simpl; lia|].
  rewrite E2 in M2. cbn [fst] in M2. rewrite shr_m_of_loc in M2.
  unfold fexp, emin in M2. simpl Zdigits2 in M2.
  set (d1 := Z.pos (digits2_pos p1)) in *.
  set (n2 := Z.max (Z.max (d1 + e' - 53) (3 - 1024 - 53) - e') 0) in *.
  assert (Hn2 : 0 <= n2 < d1) by (unfold n2; lia).
  assert (L2 : 1 <= shr_m mrs'').
  { rewrite M2. apply Z.div_le_lower_bound; [apply Z.pow_pos_nonneg; lia|].
    assert (2 ^ n2 <= 2 ^ (d1 - 1)) by (apply Z.pow_le_mono_r; lia). lia. }
  destruct (shr_m mrs'') as [|q|q]; try lia.
  destruct (e'' <=? 1024 - 53); discriminate.
Qed.

Lemma binary_normalize_not_zero (x : Z) :
  x <> 0 -> forall z, binary_normalize prec64 emax64 x 0 false <> S754_zero z.
Proof.
  intros N z. unfold prec64, emax64, binary_normalize.
  assert (R : forall s m, binary_round 53 1024 s m 0 <> S754_zero z).
  { intros s m. unfold binary_round.
    remember (fexp 53 1024 (Z.pos (digits2_pos m) + 0)) as k eqn:K.
    assert (Hk : -52 <= k) by (unfold fexp, emin in K; lia).
    clear K.
    destruct (shl_align m 0 k) as [mz ez] eqn:A.
    apply (binary_round_aux_not_zero s mz ez loc_Exact).
    unfold shl_align in A.
    assert (1 <= Z.pos (digits2_pos mz)) by lia.
    destruct (k - 0) eqn:D; injection A as <- <-; lia. }
  destruct x; [congruence | apply R | apply R].
Qed.

(** ** Division *)

Lemma zero_number_falsy (v : json) : zero_number v = true -> truthy v = false.
Proof.
  destruct v as [|b|z|f|s|l|d]; simpl; try discriminate.
  - now destruct b.
  - unfold zero_number. simpl. now intros ->.
  - unfold zero_number. simpl. now destruct f.
Qed.

Lemma truthy_number (v : json) :
  match as_number v with
  | Some (NInt z) => truthy v = negb (z =? 0)
  | Some (NFloat f) => truthy v = negb (is_zero f)
  | None => True
  end.
Proof. destruct v as [|[]|z|[]|s|l|d]; simpl; auto. Qed.

Lemma float_of_int_zero (z : Z) (f : pyfloat) :
  float_of_int z = Return f -> is_zero f = true -> z = 0.
Proof.
  unfold float_of_int. intros E Z0.
  destruct (is_infinite _); [discriminate|]. injection E as <-.
  destruct (Z.eq_dec z 0) as [->|N]; [reflexivity|].
  destruct (binary_normalize prec64 emax64 z 0 false) eqn:B; try discriminate.
  now apply binary_normalize_not_zero in B.
Qed.

Lemma float_of_int_raises (z : Z) (e : exn) :
  float_of_int z = Raise e -> is_ZeroDivisionError e = false.
Proof.
  unfold float_of_int. destruct (is_infinite _); [|discriminate].
  now intros [= <-].
Qed.

Lemma float_truediv_raises (x y : pyfloat) (e : exn) :
  float_truediv x y = Raise e -> is_zero y = true.
Proof. unfold float_truediv. now destruct (is_zero y). Qed.

Lemma int_truediv_raises (x y : Z) (e : exn) :
  int_truediv x y = Raise e -> is_ZeroDivisionError e = true -> y = 0.
Proof.
  unfold int_truediv. destruct (y =? 0) eqn:Y; [intros _ _; lia|].
  destruct x; [discriminate | |];
    destruct (SFdiv_core_binary _ _ _ _ _ _) as [[q e0] loc];
    destruct (is_infinite _); try discriminate; now intros [= <-].
Qed.

(** [a / b] raises [ZeroDivisionError] only on a falsy divisor. *)
Lemma truediv_zero_division (a b : json) (e : exn) :
  truediv a b = Raise e -> is_ZeroDivisionError e = true -> truthy b = false.
Proof.
  unfold truediv. pose proof (truthy_number b) as T.
  destruct (as_number a) as [[x|x]|], (as_number b) as [[y|y]|];
    try (now intros [= <-]); intros E Z0.
  - rewrite (int_truediv_raises _ _ _ E Z0) in T. exact T.
  - apply bind_Raise in E as [E | (x' & _ & E)].
    + now rewrite (float_of_int_raises _ _ E) in Z0.
    + now rewrite (float_truediv_raises _ _ _ E) in T.
  - apply bind_Raise in E as [E | (y' & C & E)].
    + now rewrite (float_of_int_raises _ _ E) in Z0.
    + apply float_truediv_raises in E.
      now rewrite (float_of_int_zero _ _ C E) in T.
  - now rewrite (float_truediv_raises _ _ _ E) in T.
Qed.

Section ConvertErrors.

Context `{Builtins}.
Variable http : transport.


(** C10. The division [target_rate / source_rate] of [convert_currency]
    never divides by zero: a source rate that is zero is falsy, a falsy
    source rate gives the missing-rate report before the division, and so
    no document makes the rendering raise [ZeroDivisionError]; under [try]
    such an exception can only come from the request itself. *)
Theorem conversion_never_divides_by_zero
  (self : book) (amount source target api_key : string) :
  (forall v, zero_number v = true -> truthy v = false)
  /\ (forall d rates,
        truthy (dict_get_default d "success" (JBool false)) = true ->
        dict_get_default d "rates" (JDict []) = JDict rates ->
        truthy (dict_get rates (upper source)) = false ->
        convert_currency_respond amount source target (JDict d)
        = Return ("Error: Could not find rates for " ++ source ++ " or " ++ target))
  /\ (forall data e,
        convert_currency_respond amount source target data = Raise e ->
        is_ZeroDivisionError e = false)
  /\ (forall e,
        convert_currency_try http self amount source target api_key = Raise e ->
        is_ZeroDivisionError e = true ->
        fetch http
          (latest_symbols_url self api_key (upper source ++ "," ++ upper target))
          (_timeout self) = Raise e).
Proof.
  assert (Hrespond : forall data e,
             convert_currency_respond amount source target data = Raise e ->
             is_ZeroDivisionError e = false).
  { intros data e E.
    destruct data as [| | | | | |d];
      try (unfold convert_currency_respond in E; simpl in E; now injection E as <-).
    destruct (truthy (dict_get_default d "success" (JBool false))) eqn:S.
    - destruct (dict_get_default d "rates" (JDict [])) as [| | | | | |rates] eqn:R;
        try (unfold convert_currency_respond in E; cbv [get bind] in E;
             rewrite S, R in E; simpl in E; now injection E as <-).
      rewrite (convert_currency_respond_success amount source target d rates S R) in E.
      cbv zeta in E.
      destruct (truthy (dict_get rates (upper source))) eqn:T1; [|discriminate].
      destruct (truthy (dict_get rates (upper target))) eqn:T2; [|discriminate].
      simpl in E.
      apply bind_Raise in E as [E | (x & _ & E)].
      + unfold py_float in E. destruct (float_of_str amount); [discriminate|].
        now injection E as <-.
      + apply bind_Raise in E as [E | (q & _ & E)]; [|discriminate].
        destruct (is_ZeroDivisionError e) eqn:Z0; [|reflexivity].
        rewrite (truediv_zero_division _ _ _ E Z0) in T1. discriminate.
    - rewrite convert_currency_respond_failure in E by exact S.
      simpl in E. unfold api_failure in E.
      apply bind_Raise in E as [E | (error & _ & E)]; [discriminate|].
      apply bind_Raise in E as [E | (info & _ & E)]; [|discriminate].
      destruct error; simpl in E; try discriminate; now injection E as <-. }
  repeat split.
  - apply zero_number_falsy.
  - intros d rates S R T.
    rewrite (convert_currency_respond_success amount source target d rates S R).
    cbv zeta. now rewrite T.
  - exact Hrespond.
  - intros e E Z0. rewrite convert_currency_try_fetch in E.
    apply bind_Raise in E as [E | (data & _ & E)]; [exact E|].
    now rewrite (Hrespond _ _ E) in Z0.
Qed.

End ConvertErrors.

(** ** Sorting the items *)

Lemma ascii_compare_refl (c : ascii) : Ascii.compare c c = Eq.
Proof. unfold Ascii.compare. apply N.compare_refl. Qed.

Lemma ascii_compare_lt_trans (a b c : ascii) :
  Ascii.compare a b = Lt -> Ascii.compare b c = Lt -> Ascii.compare a c = Lt.
Proof.
  unfold Ascii.compare. rewrite !N.compare_lt_iff. apply N.lt_trans.
Qed.

Lemma string_leb_trans (a b c : string) :
  String.leb a b = true -> String.leb b c = true -> String.leb a c = true.
Proof.
  unfold String.leb. revert b c.
  induction a as [|x a IH]; intros [|y b] [|z c]; simpl; try easy.
  destruct (Ascii.compare x y) eqn:XY; try discriminate;
    destruct (Ascii.compare y z) eqn:YZ; try discriminate.
  - apply Ascii.compare_eq_iff in XY, YZ. subst.
    rewrite ascii_compare_refl. apply IH.
  - apply Ascii.compare_eq_iff in XY. subst. now rewrite YZ.
  - apply Ascii.compare_eq_iff in YZ. subst. now rewrite XY.
  - now rewrite (ascii_compare_lt_trans _ _ _ XY YZ).
Qed.

Lemma string_leb_neq_ltb (a b : string) :
  String.leb a b = true -> a <> b -> String.ltb a b = true.
Proof.
  unfold String.leb, String.ltb. intros L N.
  destruct (String.compare a b) eqn:C; try easy.
  now apply String.compare_eq_iff in C.
Qed.

Lemma item_leb_transitive : Transitive (fun a b => is_true (ItemOrder.leb a b)).
Proof. intros a b c. unfold is_true, ItemOrder.leb. apply string_leb_trans. Qed.

Lemma sorted_permutation (its : pydict) : Permutation its (sorted its).
Proof. apply ItemSort.Permuted_sort. Qed.

Lemma sorted_by_leb (its : pydict) :
  StronglySorted (fun a b => is_true (ItemOrder.leb a b)) (sorted its).
Proof. apply ItemSort.StronglySorted_sort, item_leb_transitive. Qed.

(** On distinct keys the order is strict. *)
Lemma strictly_sorted (l : pydict) :
  StronglySorted (fun a b => is_true (ItemOrder.leb a b)) l ->
  NoDup (map fst l) ->
  StronglySorted key_lt l.
Proof.
  induction 1 as [|a l S IH F]; intros N; constructor.
  - apply IH. now inversion N.
  - inversion N as [|k ks Nin N']; subst.
    rewrite Forall_forall in F |- *. intros b Hb.
    apply string_leb_neq_ltb; [apply F, Hb|].
    intros E. apply Nin. rewrite E. now apply in_map.
Qed.

Lemma StronglySorted_app_inv {A : Type} (R : A -> A -> Prop) (l1 l2 : list A) :
  StronglySorted R (l1 ++ l2) ->
  StronglySorted R l1 /\ forall a b, In a l1 -> In b l2 -> R a b.
Proof.
  induction l1 as [|x l1 IH]; simpl; intros S.
  - split; [constructor | intros a b []].
  - inversion S as [|y l S' F]; subst. destruct (IH S') as [S1 B].
    rewrite Forall_forall in F. split.
    + constructor; [exact S1|]. rewrite Forall_forall. intros b Hb.
      apply F, in_or_app. now left.
    + intros a b [<-|Ha] Hb; [apply F, in_or_app; now right | now apply B].
Qed.

(** The first [n] items of the sorted list are the [n] smallest, in order. *)
Lemma first_of_sorted (n : nat) (its : pydict) :
  NoDup (map fst its) ->
  (n <= List.length its)%nat ->
  first_by_key n its (slice_to n (sorted its)).
Proof.
  intros N L. unfold first_by_key, slice_to.
  pose proof (sorted_permutation its) as P.
  assert (S : StronglySorted key_lt (sorted its)).
  { apply strictly_sorted; [apply sorted_by_leb|].
    eapply Permutation_NoDup; [apply Permutation_map, P | exact N]. }
  rewrite <- (firstn_skipn n (sorted its)) in S, P.
  apply StronglySorted_app_inv in S as [S1 B].
  repeat split.
  - rewrite firstn_length_le; [reflexivity|].
    now rewrite <- (Permutation_length (sorted_permutation its)).
  - exact S1.
  - intros x Hx. eapply Permutation_in; [symmetry; exact P|].
    apply in_or_app. now left.
  - intros x y Hx Nx Hy. apply B; [exact Hy|].
    apply (Permutation_in _ P) in Hx. apply in_app_or in Hx as [Hx|Hx]; [|exact Hx].
    contradiction.
Qed.

(** ** The listings *)

Section Listings.

Context `{Builtins}.
Variable http : transport.

(** C4. On a success response with at least 10 rates [get_rates] returns
    "Exchange rates for {base} on {date}: ", then exactly 10 entries, each
    the code, ": " and the rate, joined by ", ", which are the 10 rates of
    smallest code in ascending order of code, then " (and {N} more
    currencies available)" with N the number of rates minus 10. *)
Theorem get_rates_first_ten (self : book) (api_key : string) (d rates : pydict) :
  fetch http (latest_url self api_key) (_timeout self) = Return (JDict d) ->
  truthy (dict_get_default d "success" (JBool false)) = true ->
  dict_get_default d "rates" (JDict []) = JDict rates ->
  NoDup (map fst rates) ->
  (10 <= List.length rates)%nat ->
  first_by_key 10 rates (slice_to 10 (sorted rates))
  /\ get_rates http self api_key
     = Return ("Exchange rates for " ++ str (dict_get_default d "base" (JStr "EUR"))
                 ++ " on " ++ str (dict_get_default d "date" (JStr "unknown")) ++ ": "
                 ++ String.concat ", "
                      (map (fun '(code, rate) => code ++ ": " ++ str rate)
                         (slice_to 10 (sorted rates)))
                 ++ " (and " ++ str_of_int (Z.of_nat (List.length rates) - 10)
                 ++ " more currencies available)").
Proof.
  intros F S R N L. split.
  - now apply first_of_sorted.
  - rewrite (get_rates_fetched http self api_key _ F).
    unfold get_rates_respond. cbv [get bind]. rewrite S. cbv [negb].
    rewrite R. reflexivity.
Qed.

(** C5. On a response without success [get_rates] returns "Error: " and
    the [info] member of the error object when there is one, and "Error:
    API request failed" when there is none. *)
Theorem get_rates_api_failure (self : book) (api_key : string) (d e : pydict) :
  fetch http (latest_url self api_key) (_timeout self) = Return (JDict d) ->
  truthy (dict_get_default d "success" (JBool false)) = false ->
  dict_get_default d "error" (JDict []) = JDict e ->
  get_rates http self api_key
  = Return ("Error: " ++ match lookup "info" e with
                         | Some info => str info
                         | None => "API request failed"
                         end).
Proof.
  intros F S E. rewrite (get_rates_fetched http self api_key _ F).
  rewrite get_rates_respond_failure by exact S.
  simpl. now rewrite (api_failure_info d e E).
Qed.


(** C7. On a success response with at least 20 symbols
    [check_supported_currencies] returns "Supported currencies (first 20 of
    {total} total): " with the size of the whole mapping for total, then
    exactly 20 entries, each the code, ": " and the name, joined by ", ",
    which are the 20 symbols of smallest code in ascending order of code. *)
Theorem check_supported_currencies_first_twenty
  (self : book) (api_key : string) (d symbols : pydict) :
  fetch http (symbols_url self api_key) (_timeout self) = Return (JDict d) ->
  truthy (dict_get_default d "success" (JBool false)) = true ->
  dict_get_default d "symbols" (JDict []) = JDict symbols ->
  NoDup (map fst symbols) ->
  (20 <= List.length symbols)%nat ->
  first_by_key 20 symbols (slice_to 20 (sorted symbols))
  /\ check_supported_currencies http self api_key
     = Return ("Supported currencies (first 20 of "
                 ++ str_of_int (Z.of_nat (List.length symbols)) ++ " total): "
                 ++ String.concat ", "
                      (map (fun '(code, name) => code ++ ": " ++ str name)
                         (slice_to 20 (sorted symbols)))).
Proof.
  intros F S R N L. split.
  - now apply first_of_sorted.
  - rewrite (check_supported_currencies_fetched http self api_key _ F).
    unfold check_supported_currencies_respond. cbv [get bind]. rewrite S. cbv [negb].
    rewrite R. reflexivity.
Qed.

End Listings.

(** ** The timeout *)

Lemma positive_not_le_zero (t : pyfloat) : positive_float t = true -> le_zero t = false.
Proof.
  unfold positive_float, le_zero, SFltb, SFleb.
  destruct t as [s|[]| |[] m e]; simpl; congruence.
Qed.

Section TimeoutProperty.

Context `{Builtins}.

Lemma procedures_use_timeout (http http' : transport) (self : book) :
  same_at (_timeout self) http http' ->
  forall api_key currencies amount source target,
    get_rates http self api_key = get_rates http' self api_key
    /\ get_specific_rates http self currencies api_key
       = get_specific_rates http' self currencies api_key
    /\ convert_currency http self amount source target api_key
       = convert_currency http' self amount source target api_key
    /\ check_supported_currencies http self api_key
       = check_supported_currencies http' self api_key.
Proof.
  intros E api_key currencies amount source target.
  unfold get_rates, get_rates_try, get_specific_rates, get_specific_rates_try,
    convert_currency, convert_currency_try,
    check_supported_currencies, check_supported_currencies_try.
  cbv zeta. rewrite !E. repeat split.
Qed.

(** C8. Setting a timeout [t > 0] succeeds, the property then reads [t] and
    the requests of the four procedures are made with [t]; setting a
    timeout [t <= 0] raises [ValueError] and leaves the book, and so the
    stored timeout, as it was. *)
Theorem timeout_setter_validates (self : book) (t : pyfloat) :
  (positive_float t = true ->
   fst (timeout_setter self t) = Return tt
   /\ timeout (snd (timeout_setter self t)) = t
   /\ (forall http http' api_key currencies amount source target,
         same_at t http http' ->
         let self' := snd (timeout_setter self t) in
         get_rates http self' api_key = get_rates http' self' api_key
         /\ get_specific_rates http self' currencies api_key
            = get_specific_rates http' self' currencies api_key
         /\ convert_currency http self' amount source target api_key
            = convert_currency http' self' amount source target api_key
         /\ check_supported_currencies http self' api_key
            = check_supported_currencies http' self' api_key)
   /\ (forall http e api_key,
         (forall url, http url t = Raise e) ->
         get_rates http (snd (timeout_setter self t)) api_key
         = Return ("Error: " ++ exc_str e)))
  /\ (le_zero t = true ->
      fst (timeout_setter self t) = Raise (mkExn ValueError "timeout must be positive")
      /\ snd (timeout_setter self t) = self
      /\ timeout (snd (timeout_setter self t)) = timeout self).
Proof.
  unfold timeout_setter. split.
  - intros P. rewrite (positive_not_le_zero t P). cbn [fst snd].
    split; [reflexivity | split; [reflexivity | split]].
    + intros http http' api_key currencies amount source target E.
      now apply procedures_use_timeout.
    + intros http e api_key E. unfold get_rates, get_rates_try. cbn [_timeout].
      cbv zeta. now rewrite E.
  - intros ->. repeat split.
Qed.

End TimeoutProperty.

(** ** Runs *)

(** The constants are the floats they are named after. *)
Example float_constants :
  float_of_int 100 = Return float_100
  /\ float_of_decimal "1.0" = Some float_1
  /\ float_of_decimal "0.85" = Some float_0_85
  /\ float_of_int 5 = Return float_5
  /\ float_of_int (-2) = Return float_minus_2
  /\ timeout init = binary_normalize prec64 emax64 30 0 false.
Proof. repeat split; vm_compute; reflexivity. Qed.

(** Ties go to the even digit, the sign of a negative zero is kept, and an
    [int] division is rounded once. *)
Example format_fixed_runs :
  format_fixed 0 (S754_finite false 5 (-1)) = "2"
  /\ format_fixed 0 (S754_finite false 7 (-1)) = "4"
  /\ format_fixed 2 (S754_finite true 1 (-3)) = "-0.12"
  /\ format_fixed 4 (S754_zero true) = "-0.0000"
  /\ format_fixed 6 (S754_infinity true) = "-inf"
  /\ int_truediv 1 3 = Return (S754_finite false 6004799503160661 (-54))
  /\ int_truediv 0 (-5) = Return (S754_zero true).
Proof. repeat split; vm_compute; reflexivity. Qed.

(** The reference builtins on a few texts: blanks, underscores, exponents
    and the special values of [float]; the shortest digits of [repr]. *)
Example reference_builtins_runs :
  float_of_decimal " 1_000.5e-1 " = float_of_decimal "100.05"
  /\ float_of_decimal "1e400" = Some (S754_infinity false)
  /\ float_of_decimal "-NaN" = Some S754_nan
  /\ float_of_decimal "1e" = None
  /\ float_of_decimal "1__0" = None
  /\ float_of_decimal "" = None
  /\ python_repr (JFloat float_0_85) = "0.85"
  /\ python_repr (JFloat float_100) = "100.0"
  /\ python_repr (JFloat (S754_finite false 5960464477539062 30)) = "6.4e+24"
  /\ python_repr (JFloat (S754_finite false 1 (-1074))) = "5e-324"
  /\ python_repr (JList [JInt 1; JNull; JStr "it's"; JDict [("a", JBool true)]])
     = String "[" (String "1" (String "," (String " " "None, "))) ++ String (ascii_of_nat 34) "it's"
         ++ String (ascii_of_nat 34) ", {'a': True}]"
  /\ latin_upper "usd,Eur" = "USD,EUR".
Proof. repeat split; vm_compute; reflexivity. Qed.

Example get_rates_run :
  get_rates (H := reference_builtins) (serve twelve_rates_document) init "key"
  = Return "Exchange rates for EUR on 2024-01-15: AED: 9, AUD: 3, CAD: 4, CHF: 5, CNY: 7, EUR: 1, GBP: 2, JPY: 160, MXN: 18, NZD: 6 (and 2 more currencies available)".
Proof. vm_compute. reflexivity. Qed.

(** With fewer than 10 rates the trailing count is negative. *)
Example get_rates_two_rates :
  get_rates (H := reference_builtins) (serve usd_eur_document) init "key"
  = Return "Exchange rates for EUR on 2024-01-15: EUR: 0.85, USD: 1.0 (and -8 more currencies available)".
Proof. vm_compute. reflexivity. Qed.

(** A document that is not an object, a transport that times out and a body
    that does not parse. *)
Example get_rates_failures :
  get_rates (H := reference_builtins) (serve (JList [])) init "key"
  = Return "Error: 'list' object has no attribute 'get'"
  /\ get_rates (H := reference_builtins)
       (fun _ _ => Raise (mkExn (LibraryError false) "Read timed out.")) init "key"
     = Return "Error: Read timed out."
  /\ get_rates (H := reference_builtins) (serve_unparsable parse_error) init "key"
     = Return "Error: Expecting value: line 1 column 1 (char 0)".
Proof. repeat split. Qed.

Example check_supported_currencies_run :
  check_supported_currencies (H := reference_builtins)
    (serve twenty_two_symbols_document) init "key"
  = Return "Supported currencies (first 20 of 22 total): AED: United Arab Emirates Dirham, AFN: Afghan Afghani, ALL: Albanian Lek, AMD: Armenian Dram, ANG: Netherlands Antillean Guilder, AOA: Angolan Kwanza, ARS: Argentine Peso, AUD: Australian Dollar, AWG: Aruban Florin, AZN: Azerbaijani Manat, BAM: Bosnia-Herzegovina Convertible Mark, BBD: Barbadian Dollar, BDT: Bangladeshi Taka, BGN: Bulgarian Lev, BHD: Bahraini Dinar, BIF: Burundian Franc, BMD: Bermudan Dollar, BND: Brunei Dollar, BOB: Bolivian Boliviano, BRL: Brazilian Real".
Proof. vm_compute. reflexivity. Qed.

(** Rates that are not numbers reach the division and its [TypeError]; an
    amount that is not a number is reported before that. *)
Example convert_currency_text_rates :
  let document :=
    JDict [("success", JBool true);
           ("rates", JDict [("USD", JStr "1.0"); ("EUR", JStr "0.85")])] in
  convert_currency (H := reference_builtins) (serve document) init "100" "usd" "eur" "key"
  = Return "Error: unsupported operand type(s) for /: 'str' and 'str'"
  /\ convert_currency (H := reference_builtins) (serve document) init "abc" "usd" "eur" "key"
     = Return "Error: Invalid amount 'abc'. Please provide a numeric value.".
Proof. split; vm_compute; reflexivity. Qed.

(** ** The theorems on concrete responses *)

Lemma twelve_rates_distinct : NoDup (map fst twelve_rates).
Proof.
  unfold twelve_rates. simpl.
  repeat (constructor; [simpl; intuition discriminate|]). constructor.
Qed.

Lemma twenty_two_symbols_distinct : NoDup (map fst twenty_two_symbols).
Proof.
  unfold twenty_two_symbols. simpl.
  repeat (constructor; [simpl; intuition discriminate|]). constructor.
Qed.

Lemma convert_100_usd_to_eur_witness :
  convert_currency (H := reference_builtins) (serve usd_eur_document) init
    "100" "USD" "EUR" "key"
  = Return "Converted 100 USD to 85.0000 EUR (rate: 0.850000) on 2024-01-15".
Proof.
  apply (@convert_100_usd_to_eur reference_builtins (serve usd_eur_document) init
           "key" "2024-01-15" usd_eur_fields usd_eur_rates); reflexivity.
Defined.


Lemma get_rates_first_ten_witness :
  get_rates (H := reference_builtins) (serve twelve_rates_document) init "key"
  = Return "Exchange rates for EUR on 2024-01-15: AED: 9, AUD: 3, CAD: 4, CHF: 5, CNY: 7, EUR: 1, GBP: 2, JPY: 160, MXN: 18, NZD: 6 (and 2 more currencies available)".
Proof.
  assert (L : (10 <= List.length twelve_rates)%nat) by (simpl; lia).
  destruct (@get_rates_first_ten reference_builtins (serve twelve_rates_document) init
              "key" twelve_rates_fields twelve_rates
              eq_refl eq_refl eq_refl twelve_rates_distinct L) as [_ E].
  rewrite E. vm_compute. reflexivity.
Defined.

Lemma get_rates_api_failure_witness :
  get_rates (H := reference_builtins) (serve invalid_key_document) init "key"
  = Return "Error: invalid access key"
  /\ get_rates (H := reference_builtins) (serve bare_failure_document) init "key"
     = Return "Error: API request failed".
Proof.
  split.
  - refine (@get_rates_api_failure reference_builtins (serve invalid_key_document) init
              "key" invalid_key_fields _ eq_refl eq_refl eq_refl).
  - refine (@get_rates_api_failure reference_builtins (serve bare_failure_document) init
              "key" bare_failure_fields _ eq_refl eq_refl eq_refl).
Defined.


Lemma check_supported_currencies_first_twenty_witness :
  check_supported_currencies (H := reference_builtins)
    (serve twenty_two_symbols_document) init "key"
  = Return "Supported currencies (first 20 of 22 total): AED: United Arab Emirates Dirham, AFN: Afghan Afghani, ALL: Albanian Lek, AMD: Armenian Dram, ANG: Netherlands Antillean Guilder, AOA: Angolan Kwanza, ARS: Argentine Peso, AUD: Australian Dollar, AWG: Aruban Florin, AZN: Azerbaijani Manat, BAM: Bosnia-Herzegovina Convertible Mark, BBD: Barbadian Dollar, BDT: Bangladeshi Taka, BGN: Bulgarian Lev, BHD: Bahraini Dinar, BIF: Burundian Franc, BMD: Bermudan Dollar, BND: Brunei Dollar, BOB: Bolivian Boliviano, BRL: Brazilian Real".
Proof.
  assert (L : (20 <= List.length twenty_two_symbols)%nat) by (simpl; lia).
  destruct (@check_supported_currencies_first_twenty reference_builtins
              (serve twenty_two_symbols_document) init "key"
              twenty_two_symbols_fields twenty_two_symbols
              eq_refl eq_refl eq_refl twenty_two_symbols_distinct L) as [_ E].
  rewrite E. vm_compute. reflexivity.
Defined.

Lemma timeout_setter_validates_witness :
  (fst (timeout_setter init float_5) = Return tt
   /\ timeout (snd (timeout_setter init float_5)) = float_5)
  /\ (snd (timeout_setter init float_minus_2) = init
      /\ snd (timeout_setter init (S754_zero false)) = init).
Proof.
  pose proof (proj1 (@timeout_setter_validates reference_builtins init float_5) eq_refl)
    as (Set5 & Read5 & _).
  pose proof (proj2 (@timeout_setter_validates reference_builtins init float_minus_2) eq_refl)
    as (_ & Kept & _).
  pose proof (proj2 (@timeout_setter_validates reference_builtins init (S754_zero false))
                eq_refl) as (_ & Kept0 & _).
  exact (conj (conj Set5 Read5) (conj Kept Kept0)).
Defined.


Lemma conversion_never_divides_by_zero_witness :
  truthy (JInt 0) = false
  /\ convert_currency_respond (H := reference_builtins) "100" "USD" "EUR" zero_usd_document
     = Return "Error: Could not find rates for USD or EUR".
Proof.
  pose proof (@conversion_never_divides_by_zero reference_builtins
                (serve zero_usd_document) init "100" "USD" "EUR" "key")
    as (Falsy & Rejected & _).
  split.
  - exact (Falsy (JInt 0) eq_refl).
  - exact (Rejected zero_usd_fields _ eq_refl eq_refl eq_refl).
Defined.

(** * Further properties *)

(** ** Sorting, continued *)

Lemma string_ltb_asym (a b : string) :
  String.ltb a b = true -> String.ltb b a = true -> False.
Proof.
  unfold String.ltb. rewrite (String.compare_antisym b a).
  destruct (String.compare a b); simpl; discriminate.
Qed.

(** A list has one arrangement in strict order of key. *)
Lemma strictly_sorted_unique (l1 : pydict) : forall l2,
  StronglySorted key_lt l1 -> StronglySorted key_lt l2 ->
  Permutation l1 l2 -> l1 = l2.
Proof.
  induction l1 as [|a l1 IH]; intros l2 S1 S2 P.
  - now apply Permutation_nil in P.
  - destruct l2 as [|b l2]; [now apply Permutation_sym, Permutation_nil in P|].
    inversion S1 as [|? ? S1' F1]; inversion S2 as [|? ? S2' F2]; subst.
    rewrite Forall_forall in F1, F2.
    assert (E : a = b).
    { assert (Ia : In a (b :: l2)) by (eapply Permutation_in; [exact P | now left]).
      assert (Ib : In b (a :: l1))
        by (eapply Permutation_in; [symmetry; exact P | now left]).
      destruct Ia as [->|Ia]; [reflexivity|].
      destruct Ib as [->|Ib]; [reflexivity|].
      exfalso. exact (string_ltb_asym _ _ (F1 _ Ib) (F2 _ Ia)). }
    subst b. f_equal. apply IH; try assumption.
    eapply Permutation_cons_inv, P.
Qed.

(** The order of the items in the dict does not show after [sorted]. *)
Lemma sorted_permuted (its its' : pydict) :
  NoDup (map fst its) -> Permutation its its' -> sorted its = sorted its'.
Proof.
  intros N P.
  assert (N' : NoDup (map fst its'))
    by (eapply Permutation_NoDup; [apply Permutation_map, P | exact N]).
  apply strictly_sorted_unique.
  - apply strictly_sorted; [apply sorted_by_leb|].
    eapply Permutation_NoDup; [apply Permutation_map, sorted_permutation | exact N].
  - apply strictly_sorted; [apply sorted_by_leb|].
    eapply Permutation_NoDup; [apply Permutation_map, sorted_permutation | exact N'].
  - rewrite <- (sorted_permutation its), <- (sorted_permutation its'). exact P.
Qed.

(** The slice of a list shorter than [n] is the list. *)
Lemma first_of_sorted_any (n : nat) (its : pydict) :
  NoDup (map fst its) ->
  first_by_key (Nat.min n (List.length its)) its (slice_to n (sorted its))
  /\ ((List.length its <= n)%nat -> Permutation its (slice_to n (sorted its))).
Proof.
  intros N.
  pose proof (Permutation_length (sorted_permutation its)) as L.
  destruct (Nat.le_gt_cases n (List.length its)) as [Le|Gt].
  - rewrite Nat.min_l by exact Le. split; [now apply first_of_sorted|].
    intros Le'. assert (n = List.length its) by lia. subst n.
    unfold slice_to. rewrite L, firstn_all. apply sorted_permutation.
  - rewrite Nat.min_r by lia.
    assert (E : slice_to n (sorted its) = slice_to (List.length its) (sorted its)).
    { unfold slice_to. rewrite L, firstn_all. apply firstn_all2. lia. }
    rewrite E. split; [now apply first_of_sorted|].
    intros _. unfold slice_to. rewrite L, firstn_all. apply sorted_permutation.
Qed.

(** ** The listings, whatever their size *)

Section ListingsAnySize.

Context `{Builtins}.
Variable http : transport.

(** X1. On a success response [get_rates] shows the rates of smallest code,
    ten of them or all when there are fewer, in ascending order of code,
    each as the code, ": " and the rate, joined by ", "; the count that
    follows is the number of rates minus 10 even when that is negative. *)
Theorem get_rates_any_count (self : book) (api_key : string) (d rates : pydict) :
  fetch http (latest_url self api_key) (_timeout self) = Return (JDict d) ->
  truthy (dict_get_default d "success" (JBool false)) = true ->
  dict_get_default d "rates" (JDict []) = JDict rates ->
  NoDup (map fst rates) ->
  first_by_key (Nat.min 10 (List.length rates)) rates (slice_to 10 (sorted rates))
  /\ ((List.length rates <= 10)%nat -> Permutation rates (slice_to 10 (sorted rates)))
  /\ get_rates http self api_key
     = Return ("Exchange rates for " ++ str (dict_get_default d "base" (JStr "EUR"))
                 ++ " on " ++ str (dict_get_default d "date" (JStr "unknown")) ++ ": "
                 ++ String.concat ", "
                      (map (fun '(code, rate) => code ++ ": " ++ str rate)
                         (slice_to 10 (sorted rates)))
                 ++ " (and " ++ str_of_int (Z.of_nat (List.length rates) - 10)
                 ++ " more currencies available)").
Proof.
  intros F S R N.
  destruct (first_of_sorted_any 10 rates N) as [A B].
  split; [exact A | split; [exact B|]].
  rewrite (get_rates_fetched http self api_key _ F).
  unfold get_rates_respond. cbv [get bind]. rewrite S. cbv [negb].
  rewrite R. reflexivity.
Qed.

(** X2. On a success response [check_supported_currencies] shows the symbols
    of smallest code, twenty of them or all when there are fewer, in
    ascending order of code, each as the code, ": " and the name, joined by
    ", "; the header says "first 20" and gives the size of the mapping in
    both cases. *)
Theorem check_supported_currencies_any_count
  (self : book) (api_key : string) (d symbols : pydict) :
  fetch http (symbols_url self api_key) (_timeout self) = Return (JDict d) ->
  truthy (dict_get_default d "success" (JBool false)) = true ->
  dict_get_default d "symbols" (JDict []) = JDict symbols ->
  NoDup (map fst symbols) ->
  first_by_key (Nat.min 20 (List.length symbols)) symbols (slice_to 20 (sorted symbols))
  /\ ((List.length symbols <= 20)%nat ->
      Permutation symbols (slice_to 20 (sorted symbols)))
  /\ check_supported_currencies http self api_key
     = Return ("Supported currencies (first 20 of "
                 ++ str_of_int (Z.of_nat (List.length symbols)) ++ " total): "
                 ++ String.concat ", "
                      (map (fun '(code, name) => code ++ ": " ++ str name)
                         (slice_to 20 (sorted symbols)))).
Proof.
  intros F S R N.
  destruct (first_of_sorted_any 20 symbols N) as [A B].
  split; [exact A | split; [exact B|]].
  rewrite (check_supported_currencies_fetched http self api_key _ F).
  unfold check_supported_currencies_respond. cbv [get bind]. rewrite S. cbv [negb].
  rewrite R. reflexivity.
Qed.

(** X3. The text of [get_rates] and of [check_supported_currencies] does not
    depend on the order in which the response lists the rates or the
    symbols: two success responses with the same base and date whose
    mappings hold the same items get the same text. *)
Theorem listings_ignore_response_order
  (http' : transport) (self self' : book) (api_key api_key' : string)
  (d d' its its' : pydict) :
  truthy (dict_get_default d "success" (JBool false)) = true ->
  truthy (dict_get_default d' "success" (JBool false)) = true ->
  NoDup (map fst its) ->
  Permutation its its' ->
  (fetch http (latest_url self api_key) (_timeout self) = Return (JDict d) ->
   fetch http' (latest_url self' api_key') (_timeout self') = Return (JDict d') ->
   dict_get_default d "base" (JStr "EUR") = dict_get_default d' "base" (JStr "EUR") ->
   dict_get_default d "date" (JStr "unknown") = dict_get_default d' "date" (JStr "unknown") ->
   dict_get_default d "rates" (JDict []) = JDict its ->
   dict_get_default d' "rates" (JDict []) = JDict its' ->
   get_rates http self api_key = get_rates http' self' api_key')
  /\ (fetch http (symbols_url self api_key) (_timeout self) = Return (JDict d) ->
      fetch http' (symbols_url self' api_key') (_timeout self') = Return (JDict d') ->
      dict_get_default d "symbols" (JDict []) = JDict its ->
      dict_get_default d' "symbols" (JDict []) = JDict its' ->
      check_supported_currencies http self api_key
      = check_supported_currencies http' self' api_key').
Proof.
  intros S S' N P. split.
  - intros F F' B D R R'.
    rewrite (get_rates_fetched http self api_key _ F).
    rewrite (get_rates_fetched http' self' api_key' _ F').
    unfold get_rates_respond. cbv [get bind].
    rewrite S, S'. cbv [negb]. rewrite R, R', B, D. cbv [items len].
    now rewrite (sorted_permuted _ _ N P), (Permutation_length P).
  - intros F F' R R'.
    rewrite (check_supported_currencies_fetched http self api_key _ F).
    rewrite (check_supported_currencies_fetched http' self' api_key' _ F').
    unfold check_supported_currencies_respond. cbv [get bind].
    rewrite S, S'. cbv [negb]. rewrite R, R'. cbv [items len].
    now rewrite (sorted_permuted _ _ N P), (Permutation_length P).
Qed.

End ListingsAnySize.

(** ** Failures of the request and of the document *)

Section Failures.

Context `{Builtins}.
Variable http : transport.

(** X4. When the request or the parse raises, [get_rates],
    [get_specific_rates] and [check_supported_currencies] return "Error: "
    followed by the text of the exception, and so does [convert_currency]
    unless the exception is a [ValueError]. *)
Theorem transport_error_text
  (self : book) (api_key currencies amount source target : string) (e : exn) :
  (fetch http (latest_url self api_key) (_timeout self) = Raise e ->
   get_rates http self api_key = Return ("Error: " ++ exc_str e))
  /\ (fetch http (latest_symbols_url self api_key (upper currencies)) (_timeout self)
      = Raise e ->
      get_specific_rates http self currencies api_key = Return ("Error: " ++ exc_str e))
  /\ (fetch http
        (latest_symbols_url self api_key (upper source ++ "," ++ upper target))
        (_timeout self) = Raise e ->
      is_ValueError e = false ->
      convert_currency http self amount source target api_key
      = Return ("Error: " ++ exc_str e))
  /\ (fetch http (symbols_url self api_key) (_timeout self) = Raise e ->
      check_supported_currencies http self api_key = Return ("Error: " ++ exc_str e)).
Proof.
  split; [|split; [|split]].
  - intros F. unfold get_rates. now rewrite catch_all, get_rates_try_fetch, F.
  - intros F. unfold get_specific_rates.
    now rewrite catch_all, get_specific_rates_try_fetch, F.
  - intros F V. unfold convert_currency.
    rewrite catch_value_error, convert_currency_try_fetch, F. simpl. now rewrite V.
  - intros F. unfold check_supported_currencies.
    now rewrite catch_all, check_supported_currencies_try_fetch, F.
Qed.

(** X5. A body that parses to something other than an object (a list, a
    text, a number, null) makes each of the four procedures return "Error:
    '{type}' object has no attribute 'get'". *)
Theorem non_object_document
  (self : book) (api_key currencies amount source target : string) (data : json) :
  is_object data = false ->
  let report := Return ("Error: '" ++ type_name data ++ "' object has no attribute 'get'") in
  (fetch http (latest_url self api_key) (_timeout self) = Return data ->
   get_rates http self api_key = report)
  /\ (fetch http (latest_symbols_url self api_key (upper currencies)) (_timeout self)
      = Return data ->
      get_specific_rates http self currencies api_key = report)
  /\ (fetch http
        (latest_symbols_url self api_key (upper source ++ "," ++ upper target))
        (_timeout self) = Return data ->
      convert_currency http self amount source target api_key = report)
  /\ (fetch http (symbols_url self api_key) (_timeout self) = Return data ->
      check_supported_currencies http self api_key = report).
Proof.
  intros O report. subst report.
  split; [|split; [|split]]; intros F.
  - rewrite (get_rates_fetched http self api_key _ F).
    destruct data; try discriminate; reflexivity.
  - rewrite (get_specific_rates_fetched http self currencies api_key _ F).
    destruct data; try discriminate; reflexivity.
  - rewrite (convert_currency_fetched http self amount source target api_key _ F).
    destruct data; try discriminate; reflexivity.
  - rewrite (check_supported_currencies_fetched http self api_key _ F).
    destruct data; try discriminate; reflexivity.
Qed.

(** X6. On a document that does not report success the four procedures
    return one and the same text, which is an error report: neither the
    rates, nor the symbols, nor the amount are looked at. *)
Theorem same_failure_report
  (self : book) (api_key currencies amount source target : string) (data : json) :
  reports_success data = false ->
  fetch http (latest_url self api_key) (_timeout self) = Return data ->
  fetch http (latest_symbols_url self api_key (upper currencies)) (_timeout self)
  = Return data ->
  fetch http (latest_symbols_url self api_key (upper source ++ "," ++ upper target))
    (_timeout self) = Return data ->
  fetch http (symbols_url self api_key) (_timeout self) = Return data ->
  exists s,
    error_text s
    /\ get_rates http self api_key = Return s
    /\ get_specific_rates http self currencies api_key = Return s
    /\ convert_currency http self amount source target api_key = Return s
    /\ check_supported_currencies http self api_key = Return s.
Proof.
  intros S F1 F2 F3 F4.
  rewrite (get_rates_fetched http self api_key _ F1).
  rewrite (get_specific_rates_fetched http self currencies api_key _ F2).
  rewrite (convert_currency_fetched http self amount source target api_key _ F3).
  rewrite (check_supported_currencies_fetched http self api_key _ F4).
  rewrite get_rates_respond_failure, get_specific_rates_respond_failure,
    convert_currency_respond_failure, check_supported_currencies_respond_failure
    by exact S.
  destruct (_ <- get data "success" (JBool false) ;; api_failure data) as [s|e] eqn:E.
  - exists s. split; [eapply failure_branch_error, E | repeat split].
  - exists ("Error: " ++ exc_str e). split; [apply error_text_intro|].
    assert (V : is_ValueError e = false).
    { apply bind_Raise in E as [E | (v & _ & E)].
      - destruct data; simpl in E; try discriminate; now injection E as <-.
      - unfold api_failure in E.
        apply bind_Raise in E as [E | (error & _ & E)];
          [destruct data; simpl in E; try discriminate; now injection E as <-|].
        apply bind_Raise in E as [E | (info & _ & E)]; [|discriminate].
        destruct error; simpl in E; try discriminate; now injection E as <-. }
    rewrite V. repeat split.
Qed.

(** X7. A success document that names no base, no date and no rates or
    symbols is rendered with the defaults "EUR", "unknown" and an empty
    mapping: the listings are empty, the count of [get_rates] is -10, and
    [convert_currency] reports the missing rates. *)
Theorem bare_success_document
  (self : book) (api_key currencies amount source target : string) (d : pydict) :
  truthy (dict_get_default d "success" (JBool false)) = true ->
  lookup "base" d = None ->
  lookup "date" d = None ->
  lookup "rates" d = None ->
  lookup "symbols" d = None ->
  (fetch http (latest_url self api_key) (_timeout self) = Return (JDict d) ->
   get_rates http self api_key
   = Return "Exchange rates for EUR on unknown:  (and -10 more currencies available)")
  /\ (fetch http (latest_symbols_url self api_key (upper currencies)) (_timeout self)
      = Return (JDict d) ->
      get_specific_rates http self currencies api_key
      = Return "Exchange rates for EUR on unknown: ")
  /\ (fetch http
        (latest_symbols_url self api_key (upper source ++ "," ++ upper target))
        (_timeout self) = Return (JDict d) ->
      convert_currency http self amount source target api_key
      = Return ("Error: Could not find rates for " ++ source ++ " or " ++ target))
  /\ (fetch http (symbols_url self api_key) (_timeout self) = Return (JDict d) ->
      check_supported_currencies http self api_key
      = Return "Supported currencies (first 20 of 0 total): ").
Proof.
  intros S B D R Y.
  split; [|split; [|split]]; intros F.
  - rewrite (get_rates_fetched http self api_key _ F).
    unfold get_rates_respond. cbv [get bind]. rewrite S. cbv [negb].
    unfold dict_get_default. rewrite B, D, R. reflexivity.
  - rewrite (get_specific_rates_fetched http self currencies api_key _ F).
    unfold get_specific_rates_respond. cbv [get bind]. rewrite S. cbv [negb].
    unfold dict_get_default. rewrite B, D, R. reflexivity.
  - rewrite (convert_currency_fetched http self amount source target api_key _ F).
    rewrite (convert_currency_respond_success amount source target d [] S)
      by (unfold dict_get_default; now rewrite R).
    reflexivity.
  - rewrite (check_supported_currencies_fetched http self api_key _ F).
    unfold check_supported_currencies_respond. cbv [get bind]. rewrite S. cbv [negb].
    unfold dict_get_default. rewrite Y. reflexivity.
Qed.

(** X8. Each procedure makes its one request at one URL with the timeout of
    the book: its result is the same on two transports that answer that
    request alike, whatever they do elsewhere.  The URL is the base URL
    followed by [/latest?access_key={key}], with [&symbols=] and the
    upper-cased codes for the two that name currencies, or by
    [/symbols?access_key={key}]; the key and the codes are not escaped. *)
Theorem one_request_each
  (http' : transport) (self : book)
  (api_key currencies amount source target : string) :
  (http (_base_url self ++ "/latest?access_key=" ++ api_key) (_timeout self)
   = http' (_base_url self ++ "/latest?access_key=" ++ api_key) (_timeout self) ->
   get_rates http self api_key = get_rates http' self api_key)
  /\ (http (_base_url self ++ "/latest?access_key=" ++ api_key
              ++ "&symbols=" ++ upper currencies) (_timeout self)
      = http' (_base_url self ++ "/latest?access_key=" ++ api_key
                 ++ "&symbols=" ++ upper currencies) (_timeout self) ->
      get_specific_rates http self currencies api_key
      = get_specific_rates http' self currencies api_key)
  /\ (http (_base_url self ++ "/latest?access_key=" ++ api_key
              ++ "&symbols=" ++ upper source ++ "," ++ upper target) (_timeout self)
      = http' (_base_url self ++ "/latest?access_key=" ++ api_key
                 ++ "&symbols=" ++ upper source ++ "," ++ upper target) (_timeout self) ->
      convert_currency http self amount source target api_key
      = convert_currency http' self amount source target api_key)
  /\ (http (_base_url self ++ "/symbols?access_key=" ++ api_key) (_timeout self)
      = http' (_base_url self ++ "/symbols?access_key=" ++ api_key) (_timeout self) ->
      check_supported_currencies http self api_key
      = check_supported_currencies http' self api_key).
Proof.
  split; [|split; [|split]]; intros E.
  - unfold get_rates, get_rates_try. cbv zeta. now rewrite E.
  - unfold get_specific_rates, get_specific_rates_try. cbv zeta. now rewrite E.
  - unfold convert_currency, convert_currency_try. cbv zeta. now rewrite E.
  - unfold check_supported_currencies, check_supported_currencies_try. cbv zeta.
    now rewrite E.
Qed.

End Failures.

(** ** The timeout, continued *)

Lemma le_zero_false_iff (t : pyfloat) :
  le_zero t = false <-> positive_float t = true \/ t = S754_nan.
Proof.
  unfold le_zero, positive_float, SFleb, SFltb.
  destruct t as [s|[]| |[] m e]; simpl; split; intros E;
    try discriminate; try (now left); try (now right);
    try reflexivity; destruct E as [E|E]; discriminate.
Qed.

Lemma last_cons {A : Type} (a d : A) (l : list A) : last (a :: l) d = last l a.
Proof.
  revert a d. induction l as [|b l IH]; intros a d; [reflexivity|].
  change (last (a :: b :: l) d) with (last (b :: l) d).
  now rewrite !IH.
Qed.

Lemma set_timeouts_state (ts : list pyfloat) : forall self,
  _base_url (set_timeouts self ts) = _base_url self
  /\ timeout (set_timeouts self ts)
     = last (filter (fun t => negb (le_zero t)) ts) (timeout self).
Proof.
  induction ts as [|t ts IH]; intros self; [split; reflexivity|].
  unfold set_timeouts. simpl fold_left. fold (set_timeouts (snd (timeout_setter self t)) ts).
  destruct (IH (snd (timeout_setter self t))) as [U T]. rewrite U, T.
  unfold timeout_setter. simpl filter.
  destruct (le_zero t); cbn [snd negb]; [split; reflexivity|].
  split; [reflexivity|]. now rewrite last_cons.
Qed.

(** X9. The setter stores [t] exactly when [t <= 0] is false, that is when
    [t] is positive or is not a number; in every other case it raises
    [ValueError] and leaves the book as it was.  It never touches the base
    URL. *)
Theorem timeout_setter_accepts (self : book) (t : pyfloat) :
  (fst (timeout_setter self t) = Return tt
   <-> positive_float t = true \/ t = S754_nan)
  /\ (fst (timeout_setter self t) = Return tt ->
      snd (timeout_setter self t) = mkBook (_base_url self) t)
  /\ (fst (timeout_setter self t) <> Return tt ->
      fst (timeout_setter self t) = Raise (mkExn ValueError "timeout must be positive")
      /\ snd (timeout_setter self t) = self)
  /\ _base_url (snd (timeout_setter self t)) = _base_url self.
Proof.
  pose proof (le_zero_false_iff t) as [I1 I2].
  unfold timeout_setter. destruct (le_zero t); cbn [fst snd].
  - split; [split; [discriminate | intros E; now apply I2 in E]|].
    split; [discriminate|]. split; [intros _; split; reflexivity | reflexivity].
  - split; [split; [intros _; now apply I1 | reflexivity]|].
    split; [reflexivity|]. split; [intros N; now contradiction N | reflexivity].
Qed.

(** X10. After any run of assignments to [timeout] on a new book, the base
    URL is the Fixer URL, the timeout is the last value that was accepted,
    or 30.0 when none was, and it is positive or not a number. *)
Theorem set_timeouts_invariant (ts : list pyfloat) :
  _base_url (set_timeouts init ts) = FIXED_CURRENCY_DATA_BASE_URL
  /\ timeout (set_timeouts init ts)
     = last (filter (fun t => negb (le_zero t)) ts) (timeout init)
  /\ (positive_float (timeout (set_timeouts init ts)) = true
      \/ timeout (set_timeouts init ts) = S754_nan).
Proof.
  destruct (set_timeouts_state ts init) as [U T].
  split; [exact U | split; [exact T|]]. rewrite T.
  assert (G : forall l d,
             (positive_float d = true \/ d = S754_nan) ->
             Forall (fun t => le_zero t = false) l ->
             positive_float (last l d) = true \/ last l d = S754_nan).
  { induction l as [|a l IH]; intros d D F; [exact D|].
    rewrite last_cons. inversion F; subst. apply IH; [|assumption].
    now apply le_zero_false_iff. }
  apply G; [left; reflexivity|].
  rewrite Forall_forall. intros t Ht. apply filter_In in Ht as [_ Ht].
  now destruct (le_zero t).
Qed.

(** ** [convert_currency], continued *)

Lemma truthy_float (f : pyfloat) : truthy (JFloat f) = negb (is_zero f).
Proof. now destruct f. Qed.

Lemma int_truediv_not_value_error (x y : Z) (e : exn) :
  int_truediv x y = Raise e -> is_ValueError e = false.
Proof.
  unfold int_truediv. destruct (y =? 0); [now intros [= <-]|].
  destruct x; [discriminate | |];
    destruct (SFdiv_core_binary _ _ _ _ _ _) as [[q e0] loc];
    destruct (is_infinite _); try discriminate; now intros [= <-].
Qed.

Lemma float_of_int_not_value_error (z : Z) (e : exn) :
  float_of_int z = Raise e -> is_ValueError e = false.
Proof.
  unfold float_of_int. destruct (is_infinite _); [|discriminate]. now intros [= <-].
Qed.

Lemma float_truediv_not_value_error (x y : pyfloat) (e : exn) :
  float_truediv x y = Raise e -> is_ValueError e = false.
Proof. unfold float_truediv. destruct (is_zero y); [|discriminate]. now intros [= <-]. Qed.

(** The division raises [TypeError], [OverflowError] or
    [ZeroDivisionError], none of which is a [ValueError]. *)
Lemma truediv_not_value_error (a b : json) (e : exn) :
  truediv a b = Raise e -> is_ValueError e = false.
Proof.
  unfold truediv.
  destruct (as_number a) as [[x|x]|], (as_number b) as [[y|y]|];
    try (now intros [= <-]); intros E.
  - eapply int_truediv_not_value_error, E.
  - apply bind_Raise in E as [E | (x' & _ & E)];
      [eapply float_of_int_not_value_error, E | eapply float_truediv_not_value_error, E].
  - apply bind_Raise in E as [E | (y' & _ & E)];
      [eapply float_of_int_not_value_error, E | eapply float_truediv_not_value_error, E].
  - eapply float_truediv_not_value_error, E.
Qed.

Section ConvertFurther.

Context `{Builtins}.
Variable http : transport.

(** After the document is there, the only [ValueError] is the one of
    [float(amount)]. *)
Lemma convert_currency_respond_value_error
  (amount source target : string) (data : json) (e : exn) :
  convert_currency_respond amount source target data = Raise e ->
  is_ValueError e = true ->
  float_of_str amount = None.
Proof.
  intros E V.
  destruct data as [| | | | | |d];
    try (unfold convert_currency_respond in E; simpl in E; injection E as <-; discriminate).
  destruct (truthy (dict_get_default d "success" (JBool false))) eqn:S.
  - destruct (dict_get_default d "rates" (JDict [])) as [| | | | | |rates] eqn:R;
      try (unfold convert_currency_respond in E; cbv [get bind] in E;
           rewrite S, R in E; simpl in E; injection E as <-; discriminate).
    rewrite (convert_currency_respond_success amount source target d rates S R) in E.
    cbv zeta in E.
    destruct (negb _ || negb _); [discriminate|].
    unfold py_float in E. destruct (float_of_str amount); [|reflexivity].
    simpl in E. apply bind_Raise in E as [E | (q & _ & E)]; [|discriminate].
    now rewrite (truediv_not_value_error _ _ _ E) in V.
  - rewrite convert_currency_respond_failure in E by exact S.
    simpl in E. unfold api_failure in E.
    apply bind_Raise in E as [E | (error & _ & E)]; [discriminate|].
    apply bind_Raise in E as [E | (info & _ & E)]; [|discriminate].
    destruct error; simpl in E; try discriminate; injection E as <-; discriminate.
Qed.

(** X11. With both rates nonzero floats and an amount that [float] reads,
    [convert_currency] never fails: the rate is target / source, the result
    is amount * rate, both on binary64, rendered with 6 and 4 decimals, the
    amount is echoed as typed and the codes in upper case. *)
Theorem convert_currency_float_rates
  (self : book) (amount source target api_key : string)
  (d rates : pydict) (s t a : pyfloat) :
  fetch http (latest_symbols_url self api_key (upper source ++ "," ++ upper target))
    (_timeout self) = Return (JDict d) ->
  truthy (dict_get_default d "success" (JBool false)) = true ->
  dict_get_default d "rates" (JDict []) = JDict rates ->
  lookup (upper source) rates = Some (JFloat s) ->
  lookup (upper target) rates = Some (JFloat t) ->
  is_zero s = false ->
  is_zero t = false ->
  float_of_str amount = Some a ->
  convert_currency http self amount source target api_key
  = Return ("Converted " ++ amount ++ " " ++ upper source ++ " to "
              ++ format_fixed 4 (float_mul a (SFdiv prec64 emax64 t s))
              ++ " " ++ upper target
              ++ " (rate: " ++ format_fixed 6 (SFdiv prec64 emax64 t s) ++ ") on "
              ++ str (dict_get_default d "date" (JStr "unknown"))).
Proof.
  intros F S R Ls Lt Zs Zt A.
  rewrite (convert_currency_fetched http self amount source target api_key _ F).
  rewrite (convert_currency_respond_success amount source target d rates S R).
  cbv zeta. unfold dict_get, dict_get_default. rewrite Ls, Lt.
  rewrite !truthy_float, Zs, Zt. simpl negb. simpl orb. cbv iota.
  unfold py_float. rewrite A. simpl bind.
  unfold truediv. simpl as_number. cbv iota.
  unfold float_truediv. rewrite Zs. reflexivity.
Qed.

(** X12. With both rates truthy, one of them not a number (a text, a list,
    an object) and an amount that [float] reads, [convert_currency] returns
    the text of the [TypeError] of the division, which names the two types,
    target first. *)
Theorem convert_currency_non_numeric_rates
  (self : book) (amount source target api_key : string)
  (d rates : pydict) (a : pyfloat) :
  fetch http (latest_symbols_url self api_key (upper source ++ "," ++ upper target))
    (_timeout self) = Return (JDict d) ->
  truthy (dict_get_default d "success" (JBool false)) = true ->
  dict_get_default d "rates" (JDict []) = JDict rates ->
  truthy (dict_get rates (upper source)) = true ->
  truthy (dict_get rates (upper target)) = true ->
  as_number (dict_get rates (upper source)) = None
  \/ as_number (dict_get rates (upper target)) = None ->
  float_of_str amount = Some a ->
  convert_currency http self amount source target api_key
  = Return ("Error: unsupported operand type(s) for /: '"
              ++ type_name (dict_get rates (upper target)) ++ "' and '"
              ++ type_name (dict_get rates (upper source)) ++ "'").
Proof.
  intros F S R Ts Tt N A.
  rewrite (convert_currency_fetched http self amount source target api_key _ F).
  rewrite (convert_currency_respond_success amount source target d rates S R).
  cbv zeta. rewrite Ts, Tt. simpl negb. simpl orb. cbv iota.
  unfold py_float. rewrite A. simpl bind. unfold truediv.
  destruct N as [N|N]; rewrite N.
  - destruct (as_number (dict_get rates (upper target))) as [[x|x]|]; reflexivity.
  - reflexivity.
Qed.

(** X13. The invalid-amount report means what it says once the document is
    there: if the response was fetched and parsed and [float] reads the
    amount, whatever is raised afterwards is reported with its own text. *)
Theorem numeric_amount_keeps_error_text
  (self : book) (amount source target api_key : string)
  (data : json) (a : pyfloat) (e : exn) :
  fetch http (latest_symbols_url self api_key (upper source ++ "," ++ upper target))
    (_timeout self) = Return data ->
  float_of_str amount = Some a ->
  convert_currency_try http self amount source target api_key = Raise e ->
  is_ValueError e = false
  /\ convert_currency http self amount source target api_key
     = Return ("Error: " ++ exc_str e).
Proof.
  intros F A E.
  assert (V : is_ValueError e = false).
  { rewrite convert_currency_try_fetch, F in E. simpl in E.
    destruct (is_ValueError e) eqn:V; [|reflexivity].
    rewrite (convert_currency_respond_value_error _ _ _ _ _ E V) in A. discriminate. }
  split; [exact V|].
  unfold convert_currency. rewrite catch_value_error, E. now rewrite V.
Qed.

(** Two spellings of the codes with the same upper case are rendered alike,
    apart from the missing-rate report, which quotes them as typed. *)
Lemma convert_currency_respond_spelling
  (amount source target source' target' : string) (data : json) :
  upper source = upper source' ->
  upper target = upper target' ->
  convert_currency_respond amount source target data
  = Return ("Error: Could not find rates for " ++ source ++ " or " ++ target)
  \/ convert_currency_respond amount source' target' data
     = convert_currency_respond amount source target data.
Proof.
  intros Us Ut. unfold convert_currency_respond. rewrite <- Us, <- Ut.
  destruct (get data "success" (JBool false)) as [v|e]; simpl; [|now right].
  destruct (negb (truthy v)); [now right|].
  destruct (get data "rates" (JDict [])) as [rates|e]; simpl; [|now right].
  destruct (get data "date" (JStr "unknown")) as [date|e]; simpl; [|now right].
  destruct (get1 rates (upper source)) as [sr|e]; simpl; [|now right].
  destruct (get1 rates (upper target)) as [tr|e]; simpl; [|now right].
  destruct (negb (truthy sr) || negb (truthy tr)); [now left | now right].
Qed.

(** X14. The codes of [convert_currency] are case-insensitive: two calls
    whose source codes, and whose target codes, have the same upper case
    make the same request and return the same text, unless that text is the
    missing-rate report, in which the codes appear as typed. *)
Theorem convert_currency_case_insensitive
  (self : book) (amount source target source' target' api_key r : string) :
  upper source = upper source' ->
  upper target = upper target' ->
  convert_currency http self amount source target api_key = Return r ->
  r <> "Error: Could not find rates for " ++ source ++ " or " ++ target ->
  convert_currency http self amount source' target' api_key = Return r.
Proof.
  intros Us Ut E N. unfold convert_currency in *.
  rewrite catch_value_error, convert_currency_try_fetch in *.
  rewrite <- Us, <- Ut.
  destruct (fetch http _ _) as [data|e]; [|exact E].
  simpl bind in *.
  destruct (convert_currency_respond_spelling amount source target source' target'
              data Us Ut) as [M|Same].
  - rewrite M in E. injection E as <-. now contradiction N.
  - now rewrite Same.
Qed.

End ConvertFurther.

(** ** The further theorems on concrete responses *)

Lemma usd_eur_rates_distinct : NoDup (map fst usd_eur_rates).
Proof.
  unfold usd_eur_rates. simpl.
  repeat (constructor; [simpl; intuition discriminate|]). constructor.
Qed.

Lemma two_symbols_distinct : NoDup (map fst two_symbols).
Proof.
  unfold two_symbols. simpl.
  repeat (constructor; [simpl; intuition discriminate|]). constructor.
Qed.

Lemma twelve_rates_shuffled_permutation : Permutation twelve_rates twelve_rates_shuffled.
Proof. change twelve_rates_shuffled with (rev twelve_rates). apply Permutation_rev. Qed.

Lemma get_rates_any_count_witness :
  get_rates (H := reference_builtins) (serve usd_eur_document) init "key"
  = Return "Exchange rates for EUR on 2024-01-15: EUR: 0.85, USD: 1.0 (and -8 more currencies available)".
Proof.
  destruct (@get_rates_any_count reference_builtins (serve usd_eur_document) init "key"
              usd_eur_fields usd_eur_rates
              eq_refl eq_refl eq_refl usd_eur_rates_distinct) as (_ & _ & E).
  rewrite E. vm_compute. reflexivity.
Defined.

Lemma check_supported_currencies_any_count_witness :
  check_supported_currencies (H := reference_builtins)
    (serve two_symbols_document) init "key"
  = Return "Supported currencies (first 20 of 2 total): EUR: Euro, USD: United States Dollar".
Proof.
  destruct (@check_supported_currencies_any_count reference_builtins
              (serve two_symbols_document) init "key"
              two_symbols_fields two_symbols
              eq_refl eq_refl eq_refl two_symbols_distinct) as (_ & _ & E).
  rewrite E. vm_compute. reflexivity.
Defined.

Lemma listings_ignore_response_order_witness :
  get_rates (H := reference_builtins) (serve twelve_rates_document) init "key"
  = get_rates (H := reference_builtins)
      (serve (JDict twelve_rates_shuffled_fields)) init "other key".
Proof.
  exact (proj1 (@listings_ignore_response_order reference_builtins
                  (serve twelve_rates_document)
                  (serve (JDict twelve_rates_shuffled_fields))
                  init init "key" "other key"
                  twelve_rates_fields twelve_rates_shuffled_fields
                  twelve_rates twelve_rates_shuffled
                  eq_refl eq_refl twelve_rates_distinct twelve_rates_shuffled_permutation)
           eq_refl eq_refl eq_refl eq_refl eq_refl eq_refl).
Defined.

Lemma transport_error_text_witness :
  get_rates (H := reference_builtins) (fun _ _ => Raise timed_out) init "key"
  = Return "Error: Read timed out."
  /\ convert_currency (H := reference_builtins) (fun _ _ => Raise timed_out) init
       "100" "usd" "eur" "key"
     = Return "Error: Read timed out.".
Proof.
  pose proof (@transport_error_text reference_builtins (fun _ _ => Raise timed_out) init
                "key" "usd,eur" "100" "usd" "eur" timed_out) as (G & _ & C & _).
  exact (conj (G eq_refl) (C eq_refl eq_refl)).
Defined.

Lemma non_object_document_witness :
  get_rates (H := reference_builtins) (serve (JList [])) init "key"
  = Return "Error: 'list' object has no attribute 'get'"
  /\ check_supported_currencies (H := reference_builtins) (serve JNull) init "key"
     = Return "Error: 'NoneType' object has no attribute 'get'".
Proof.
  split.
  - exact (proj1 (@non_object_document reference_builtins (serve (JList [])) init
                    "key" "usd" "1" "usd" "eur" (JList []) eq_refl) eq_refl).
  - exact (proj2 (proj2 (proj2 (@non_object_document reference_builtins (serve JNull) init
                                  "key" "usd" "1" "usd" "eur" JNull eq_refl))) eq_refl).
Defined.

Lemma same_failure_report_witness :
  exists s,
    error_text s
    /\ get_rates (H := reference_builtins) (serve invalid_key_document) init "key"
       = Return s
    /\ get_specific_rates (H := reference_builtins) (serve invalid_key_document) init
         "usd,gbp" "key" = Return s
    /\ convert_currency (H := reference_builtins) (serve invalid_key_document) init
         "abc" "usd" "eur" "key" = Return s
    /\ check_supported_currencies (H := reference_builtins)
         (serve invalid_key_document) init "key" = Return s.
Proof.
  exact (@same_failure_report reference_builtins (serve invalid_key_document) init
           "key" "usd,gbp" "abc" "usd" "eur" invalid_key_document
           eq_refl eq_refl eq_refl eq_refl eq_refl).
Defined.

Lemma bare_success_document_witness :
  get_rates (H := reference_builtins) (serve (JDict bare_success_fields)) init "key"
  = Return "Exchange rates for EUR on unknown:  (and -10 more currencies available)"
  /\ convert_currency (H := reference_builtins) (serve (JDict bare_success_fields)) init
       "100" "usd" "eur" "key"
     = Return "Error: Could not find rates for usd or eur".
Proof.
  pose proof (@bare_success_document reference_builtins
                (serve (JDict bare_success_fields)) init "key" "usd" "100" "usd" "eur"
                bare_success_fields eq_refl eq_refl eq_refl eq_refl eq_refl)
    as (G & _ & C & _).
  exact (conj (G eq_refl) (C eq_refl)).
Defined.

Lemma one_request_each_witness :
  get_rates (H := reference_builtins) (serve twelve_rates_document) init "key"
  = get_rates (H := reference_builtins)
      (serve_only "https://data.fixer.io/api/latest?access_key=key" twelve_rates_document)
      init "key"
  /\ convert_currency (H := reference_builtins) (serve usd_eur_document) init
       "100" "usd" "eur" "key"
     = convert_currency (H := reference_builtins)
         (serve_only "https://data.fixer.io/api/latest?access_key=key&symbols=USD,EUR"
            usd_eur_document)
         init "100" "usd" "eur" "key".
Proof.
  split.
  - exact (proj1 (@one_request_each reference_builtins (serve twelve_rates_document)
                    (serve_only "https://data.fixer.io/api/latest?access_key=key"
                       twelve_rates_document)
                    init "key" "usd" "100" "usd" "eur") eq_refl).
  - exact (proj1 (proj2 (proj2 (@one_request_each reference_builtins
                    (serve usd_eur_document)
                    (serve_only
                       "https://data.fixer.io/api/latest?access_key=key&symbols=USD,EUR"
                       usd_eur_document)
                    init "key" "usd" "100" "usd" "eur"))) eq_refl).
Defined.

Lemma timeout_setter_accepts_witness :
  snd (timeout_setter init float_5) = mkBook FIXED_CURRENCY_DATA_BASE_URL float_5
  /\ fst (timeout_setter init S754_nan) = Return tt
  /\ snd (timeout_setter init float_minus_2) = init.
Proof.
  pose proof (@timeout_setter_accepts init float_5) as (_ & Stored & _).
  pose proof (@timeout_setter_accepts init S754_nan) as (Nan & _).
  pose proof (@timeout_setter_accepts init float_minus_2) as (_ & _ & Refused & _).
  refine (conj (Stored eq_refl) (conj (proj2 Nan (or_intror eq_refl)) _)).
  refine (proj2 (Refused _)). discriminate.
Defined.

Lemma convert_currency_float_rates_witness :
  convert_currency (H := reference_builtins) (serve usd_eur_document) init
    "2.5" "eur" "usd" "key"
  = Return "Converted 2.5 EUR to 2.9412 USD (rate: 1.176471) on 2024-01-15".
Proof.
  rewrite (@convert_currency_float_rates reference_builtins (serve usd_eur_document) init
             "2.5" "eur" "usd" "key" usd_eur_fields usd_eur_rates
             float_0_85 float_1 (S754_finite false 5629499534213120 (-51))
             eq_refl eq_refl eq_refl eq_refl eq_refl eq_refl eq_refl eq_refl).
  vm_compute. reflexivity.
Defined.

Lemma convert_currency_non_numeric_rates_witness :
  convert_currency (H := reference_builtins) (serve (JDict text_rates_fields)) init
    "100" "usd" "eur" "key"
  = Return "Error: unsupported operand type(s) for /: 'float' and 'str'".
Proof.
  exact (@convert_currency_non_numeric_rates reference_builtins
           (serve (JDict text_rates_fields)) init "100" "usd" "eur" "key"
           text_rates_fields _ float_100
           eq_refl eq_refl eq_refl eq_refl eq_refl (or_introl eq_refl) eq_refl).
Defined.

Lemma numeric_amount_keeps_error_text_witness :
  convert_currency (H := reference_builtins) (serve (JDict text_rates_fields)) init
    "100" "usd" "eur" "key"
  = Return "Error: unsupported operand type(s) for /: 'float' and 'str'".
Proof.
  exact (proj2 (@numeric_amount_keeps_error_text reference_builtins
                  (serve (JDict text_rates_fields)) init "100" "usd" "eur" "key"
                  (JDict text_rates_fields) float_100
                  (mkExn TypeError "unsupported operand type(s) for /: 'float' and 'str'")
                  eq_refl eq_refl eq_refl)).
Defined.

Lemma convert_currency_case_insensitive_witness :
  convert_currency (H := reference_builtins) (serve usd_eur_document) init
    "100" "USD" "Eur" "key"
  = Return "Converted 100 USD to 85.0000 EUR (rate: 0.850000) on 2024-01-15".
Proof.
  refine (@convert_currency_case_insensitive reference_builtins (serve usd_eur_document)
            init "100" "usd" "eur" "USD" "Eur" "key" _ eq_refl eq_refl eq_refl _).
  discriminate.
Defined.
